(** * tstd: the Option and Result algebras, the capture constructors and pipe

    A shallow embedding of [src/Option.ts], [src/Result.ts],
    [src/TaggedError.ts] and [src/errors/UnknownException.ts], followed by
    the integer part of [src/math] and by [src/comparable].

    - The tagged unions [Option<T>] and [Result<T, E>] are inductive types;
      the discriminant field [_tag] is a function of the constructor.
    - A JavaScript call either completes normally or throws.  Every function
      that contains a [throw], or that calls a caller-supplied callback, is
      written in the [Completion] monad; [throw] is [raise] and
      [try { .. } catch (error) { .. }] is [catch].
    - [match(self).with({ _tag: "Some" }, h).otherwise(k)] of ts-pattern runs
      the first handler whose pattern accepts [self] and falls back to the
      [otherwise] handler; it is written as a Rocq [match] on [self], the
      guards [P.when(..)] as an [if] on the guard's result, in source order.
    - A promise is represented by the state it eventually settles in. *)

From Stdlib Require Import String ZArith Bool List Lia Permutation OrderedTypeEx.
From ExtLib Require Import Structures.Monad Structures.MonadExc.
Import MonadNotation.

Set Implicit Arguments.

Local Open Scope monad_scope.
Local Open Scope string_scope.

(** ** JavaScript completions, errors and promises *)

Module Js.

(** The outcome of evaluating a call: a value, or a thrown value of type [X]
    (TypeScript's [unknown] in a [catch] clause). *)
Inductive Completion (X A : Type) : Type :=
| Return (value : A)
| Throw (thrown : X).

Arguments Return {X A} value.
Arguments Throw {X A} thrown.

Definition Completion_bind {X A B} (c : Completion X A) (k : A -> Completion X B)
  : Completion X B :=
  match c with
  | Return value => k value
  | Throw thrown => Throw thrown
  end.

(** [try { c } catch (error) { handler(error) }] *)
Definition Completion_catch {X A} (c : Completion X A) (handler : X -> Completion X A)
  : Completion X A :=
  match c with
  | Return value => Return value
  | Throw thrown => handler thrown
  end.

#[global] Instance Monad_Completion (X : Type) : Monad (Completion X) :=
  {| ret := fun _ value => Return value;
     bind := fun _ _ c k => Completion_bind c k |}.

#[global] Instance Exc_Completion (X : Type) : MonadExc X (Completion X) :=
  {| raise := fun _ thrown => Throw thrown;
     catch := fun _ c handler => Completion_catch c handler |}.

(** The built-in [Error] class: [new Error(message)]. *)
Record Error : Type := new_Error { message : string }.

(** The state a [Promise<T>] settles in; [Pending] is a promise that never
    settles. *)
Inductive Promise (X T : Type) : Type :=
| Fulfilled (value : T)
| Rejected (reason : X)
| Pending.

Arguments Fulfilled {X T} value.
Arguments Rejected {X T} reason.
Arguments Pending {X T}.

(** A reaction's completion settles the derived promise. *)
Definition settle {X T} (c : Completion X T) : Promise X T :=
  match c with
  | Return value => Fulfilled value
  | Throw thrown => Rejected thrown
  end.

(** [p.then(onFulfilled)] *)
Definition then_ {X T U} (onFulfilled : T -> Completion X U) (p : Promise X T)
  : Promise X U :=
  match p with
  | Fulfilled value => settle (onFulfilled value)
  | Rejected reason => Rejected reason
  | Pending => Pending
  end.

(** [p.catch(onRejected)] *)
Definition catch_ {X T} (onRejected : X -> Completion X T) (p : Promise X T)
  : Promise X T :=
  match p with
  | Fulfilled value => Fulfilled value
  | Rejected reason => settle (onRejected reason)
  | Pending => Pending
  end.

End Js.

Import Js.

(** ** src/TaggedError.ts and src/errors/UnknownException.ts *)

Module TaggedError.

(** An instance of a class returned by [TaggedError(tag)]: the constructor
    copies the fields of [args] onto the object ([Object.assign(this, args)])
    and the class field [_tag] holds the tag. *)
Record Instance (A : Type) : Type := { _tag : string; args : A }.

(** [new (TaggedError(tag))(args)] *)
Definition TaggedError (tag : string) {A : Type} (args : A) : Instance A :=
  {| _tag := tag; args := args |}.

End TaggedError.

Module UnknownException.

(** The constructor argument [{ error }]. *)
Record Args (X : Type) : Type := { error : X }.

(** [class UnknownException extends TaggedError("UnknownException")<{ error: Error }>] *)
Definition UnknownException (X : Type) : Type := TaggedError.Instance (Args X).

(** [new UnknownException({ error })] *)
Definition new_UnknownException {X : Type} (args : Args X) : UnknownException X :=
  TaggedError.TaggedError "UnknownException" args.

End UnknownException.

(** ** src/Result.ts *)

Module Result.

Import UnknownException.

Inductive Result (T E : Type) : Type :=
| Ok (value : T)
| Err (error : E).

Arguments Ok {T E} value.
Arguments Err {T E} error.

Definition _tag {T E} (self : Result T E) : string :=
  match self with
  | Ok _ => "Ok"
  | Err _ => "Err"
  end.

Definition isOk {T E} (self : Result T E) : bool := _tag self =? "Ok".

Definition isErr {T E} (self : Result T E) : bool := _tag self =? "Err".

Definition expect {T E} (message : string) (self : Result T E) : Completion Error T :=
  match self with
  | Ok value => ret value
  | Err _ => raise (new_Error message)
  end.

Definition expectErr {T E} (message : string) (self : Result T E) : Completion Error E :=
  match self with
  | Err error => ret error
  | Ok _ => raise (new_Error message)
  end.

Definition map {X T U E} (fn : T -> Completion X U) (self : Result T E)
  : Completion X (Result U E) :=
  match self with
  | Ok value => u <- fn value ;; ret (Ok u)
  | Err error => ret (Err error)
  end.

Definition mapOr {X T U E} (defaultValue : U) (fn : T -> Completion X U)
  (self : Result T E) : Completion X U :=
  match self with
  | Ok value => fn value
  | Err _ => ret defaultValue
  end.

Definition mapOrElse {X T U E} (fnWhenErr : E -> Completion X U)
  (fn : T -> Completion X U) (self : Result T E) : Completion X U :=
  match self with
  | Ok value => fn value
  | Err error => fnWhenErr error
  end.

Definition unwrap {T E} (self : Result T E) : Completion Error T :=
  match self with
  | Ok value => ret value
  | Err _ => raise (new_Error "Called `unwrap` on an `Err` value")
  end.

Definition unwrapErr {T E} (self : Result T E) : Completion Error E :=
  match self with
  | Err error => ret error
  | Ok _ => raise (new_Error "Called `unwrapErr` on an `Ok` value")
  end.

(** The combinators of [Result.ts] that the accessors above do not cover. *)

Definition isOkAnd {X T E} (predicate : T -> Completion X bool) (self : Result T E)
  : Completion X bool :=
  match self with
  | Ok value => predicate value
  | Err _ => ret false
  end.

Definition isErrAnd {X T E} (predicate : E -> Completion X bool) (self : Result T E)
  : Completion X bool :=
  match self with
  | Err error => predicate error
  | Ok _ => ret false
  end.

Definition and {T U E} (other : Result U E) (self : Result T E) : Result U E :=
  match self with
  | Ok _ => other
  | Err error => Err error
  end.

Definition andThen {X T U E} (fn : T -> Completion X (Result U E)) (self : Result T E)
  : Completion X (Result U E) :=
  match self with
  | Ok value => fn value
  | Err error => ret (Err error)
  end.

Definition flatten {T E} (self : Result (Result T E) E) : Result T E :=
  match self with
  | Ok value => value
  | Err error => Err error
  end.

Definition inspect {X T E R} (fn : T -> Completion X R) (self : Result T E)
  : Completion X (Result T E) :=
  match self with
  | Ok value => fn value ;; ret self
  | Err _ => ret self
  end.

Definition inspectErr {X T E R} (fn : E -> Completion X R) (self : Result T E)
  : Completion X (Result T E) :=
  match self with
  | Err error => fn error ;; ret self
  | Ok _ => ret self
  end.

Definition mapErr {X T E F} (fn : E -> Completion X F) (self : Result T E)
  : Completion X (Result T F) :=
  match self with
  | Err error => f <- fn error ;; ret (Err f)
  | Ok value => ret (Ok value)
  end.

Definition or {T E} (other : Result T E) (self : Result T E) : Result T E :=
  match self with
  | Ok _ => self
  | Err _ => other
  end.

Definition orElse {X T E} (op : E -> Completion X (Result T E)) (self : Result T E)
  : Completion X (Result T E) :=
  match self with
  | Ok _ => ret self
  | Err error => op error
  end.

Definition unwrapOr {T E} (defaultValue : T) (self : Result T E) : T :=
  match self with
  | Ok value => value
  | Err _ => defaultValue
  end.

Definition unwrapOrElse {X T E} (fn : E -> Completion X T) (self : Result T E)
  : Completion X T :=
  match self with
  | Ok value => ret value
  | Err error => fn error
  end.

(** The argument of [tryCatch]: a function (first overload, whose error type
    is [UnknownException]) or an object [{ try, catch }] (second overload).
    [typeof fnOrObj === "function"] tells them apart. *)
Inductive TryCatchArg (X T : Type) : Type -> Type :=
| Fn (fn : unit -> Completion X T) : TryCatchArg X T (UnknownException X)
| Obj {E : Type} (try_ : unit -> Completion X T) (catch_ : X -> Completion X E)
  : TryCatchArg X T E.

Arguments Fn {X T} fn.
Arguments Obj {X T E} try_ catch_.

Definition tryCatch {X T E} (fnOrObj : TryCatchArg X T E) : Completion X (Result T E) :=
  match fnOrObj in TryCatchArg _ _ E0 return Completion X (Result T E0) with
  | Fn fn =>
      catch (value <- fn tt ;; ret (Ok value))
            (fun error => ret (Err (new_UnknownException {| error := error |})))
  | Obj try_ catch_ =>
      catch (value <- try_ tt ;; ret (Ok value))
            (fun error => e <- catch_ error ;; ret (Err e))
  end.

(** The argument of [tryPromise], same two shapes over promise-returning
    functions. *)
Inductive TryPromiseArg (X T : Type) : Type -> Type :=
| FnP (fn : unit -> Completion X (Promise X T)) : TryPromiseArg X T (UnknownException X)
| ObjP {E : Type} (try_ : unit -> Completion X (Promise X T))
    (catch_ : X -> Completion X E) : TryPromiseArg X T E.

Arguments FnP {X T} fn.
Arguments ObjP {X T E} try_ catch_.

(** [tryPromise] is an ordinary (not [async]) function: the call [fnOrObj()]
    is evaluated in its body, outside any [try]; the reactions [.then(Ok)]
    and [.catch(..)] are attached to the promise that call returns. *)
Definition tryPromise {X T E} (fnOrObj : TryPromiseArg X T E)
  : Completion X (Promise X (Result T E)) :=
  match fnOrObj in TryPromiseArg _ _ E0 return Completion X (Promise X (Result T E0)) with
  | FnP fn =>
      promise <- fn tt ;;
      ret (catch_ (fun error => ret (Err (new_UnknownException {| error := error |})))
             (then_ (fun value => ret (Ok value)) promise))
  | ObjP try_ catch_0 =>
      promise <- try_ tt ;;
      ret (catch_ (fun error => e <- catch_0 error ;; ret (Err e))
             (then_ (fun value => ret (Ok value)) promise))
  end.

End Result.

(** ** src/Option.ts *)

Module Option.

Import Result.

Inductive Option (T : Type) : Type :=
| Some (value : T)
| None.

Arguments Some {T} value.
Arguments None {T}.

Definition _tag {T} (self : Option T) : string :=
  match self with
  | Some _ => "Some"
  | None => "None"
  end.

Definition and {T U} (other : Option U) (self : Option T) : Option U :=
  match self with
  | Some _ => other
  | None => None
  end.

Definition andThen {X T U} (fn : T -> Completion X (Option U)) (self : Option T)
  : Completion X (Option U) :=
  match self with
  | Some value => fn value
  | None => ret None
  end.

Definition expect {T} (msg : string) (self : Option T) : Completion Error T :=
  match self with
  | Some value => ret value
  | None => raise (new_Error msg)
  end.

Definition filter {X T} (predicate : T -> Completion X bool) (self : Option T)
  : Completion X (Option T) :=
  match self with
  | Some value =>
      bind (predicate value)
           (fun accepted : bool => if accepted then ret self else ret None)
  | None => ret None
  end.

Definition flatten {T} (self : Option (Option T)) : Option T :=
  match self with
  | Some value => value
  | None => None
  end.

Definition inspect {X T R} (fn : T -> Completion X R) (self : Option T)
  : Completion X (Option T) :=
  match self with
  | Some value => fn value ;; ret self
  | None => ret self
  end.

Definition isNone {T} (self : Option T) : bool :=
  match self with
  | None => true
  | Some _ => false
  end.

Definition isNoneOr {X T} (fn : T -> Completion X bool) (self : Option T)
  : Completion X bool :=
  match self with
  | None => ret true
  | Some value =>
      bind (fn value)
           (fun accepted : bool => if accepted then ret true else ret false)
  end.

Definition isSome {T} (option : Option T) : bool := _tag option =? "Some".

Definition isSomeAnd {X T} (predicate : T -> Completion X bool) (self : Option T)
  : Completion X bool :=
  match self with
  | Some value => predicate value
  | None => ret false
  end.

Definition map {X T U} (fn : T -> Completion X U) (self : Option T)
  : Completion X (Option U) :=
  match self with
  | Some value => u <- fn value ;; ret (Some u)
  | None => ret None
  end.

Definition mapOr {X T U} (defaultValue : U) (fn : T -> Completion X U)
  (self : Option T) : Completion X (Option U) :=
  match self with
  | Some value => u <- fn value ;; ret (Some u)
  | None => ret (Some defaultValue)
  end.

Definition mapOrElse {X T U} (defaultFn : unit -> Completion X U)
  (fn : T -> Completion X U) (self : Option T) : Completion X (Option U) :=
  match self with
  | Some value => u <- fn value ;; ret (Some u)
  | None => u <- defaultFn tt ;; ret (Some u)
  end.

Definition okOr {T E} (err : E) (self : Option T) : Result T E :=
  match self with
  | Some value => Ok value
  | None => Err err
  end.

Definition okOrElse {X T E} (errFn : unit -> Completion X E) (self : Option T)
  : Completion X (Result T E) :=
  match self with
  | Some value => ret (Ok value)
  | None => e <- errFn tt ;; ret (Err e)
  end.

Definition or {T} (other : Option T) (self : Option T) : Option T :=
  match self with
  | Some _ => self
  | None => other
  end.

Definition orElse {X T} (fn : unit -> Completion X (Option T)) (self : Option T)
  : Completion X (Option T) :=
  match self with
  | Some _ => ret self
  | None => fn tt
  end.

(** The two guarded patterns [P.when(isOk)] and [P.when(isErr)] are tried in
    this order on the payload of a [Some]; [value.value] and [value.error]
    read the payload narrowed by the guard, so the second branch of each
    inner [match] is never taken.  The [otherwise] handler returns
    [Ok(None)]. *)
Definition transpose {T E} (self : Option (Result T E)) : Result (Option T) E :=
  match self with
  | Some value =>
      if Result.isOk value then
        match value with
        | Ok v => Ok (Some v)
        | Err _ => Ok None
        end
      else if Result.isErr value then
        match value with
        | Err e => Err e
        | Ok _ => Ok None
        end
      else Ok None
  | None => Ok None
  end.

Definition unwrap {T} (self : Option T) : Completion Error T :=
  match self with
  | Some value => ret value
  | None => raise (new_Error "Called `Option.unwrap()` on a `None` value")
  end.

Definition unwrapOr {T} (defaultValue : T) (self : Option T) : T :=
  match self with
  | Some value => value
  | None => defaultValue
  end.

Definition unwrapOrElse {X T} (fn : unit -> Completion X T) (self : Option T)
  : Completion X T :=
  match self with
  | Some value => ret value
  | None => fn tt
  end.

(** A two-element array [[a, b]] is a pair. *)
Definition unzip {T U} (self : Option (T * U)) : Option T * Option U :=
  match self with
  | Some (a, b) => (Some a, Some b)
  | None => (None, None)
  end.

Definition xor {T} (other : Option T) (self : Option T) : Option T :=
  match self with
  | Some _ => if isSome other then None else self
  | None => if isNone other then None else other
  end.

(** [self.value] and [other.value] are read under the type guards
    [isSome(self) && isSome(other)], so the last branch of the inner [match]
    is never taken. *)
Definition zip {T U} (other : Option U) (self : Option T) : Option (T * U) :=
  if isSome self && isSome other then
    match self, other with
    | Some selfValue, Some otherValue => Some (selfValue, otherValue)
    | _, _ => None
    end
  else None.

Definition zipWith {X T U R} (other : Option U) (fn : T -> U -> Completion X R)
  (self : Option T) : Completion X (Option R) :=
  if isSome self && isSome other then
    match self, other with
    | Some selfValue, Some otherValue => r <- fn selfValue otherValue ;; ret (Some r)
    | _, _ => ret None
    end
  else ret None.

End Option.

(** ** src/pipe.ts *)

Module Pipe.

(** Modelled from the spec: the "zero or more unary transformation
    functions" that [pipe] accepts after the start value ([src/pipe.ts] is
    not among the sources).  Each function takes the type the previous one
    returns, and may throw. *)
Inductive Fns (X : Type) : Type -> Type -> Type :=
| Last {A : Type} : Fns X A A
| Next {A B C : Type} (fn : A -> Completion X B) (rest : Fns X B C) : Fns X A C.

Arguments Last {X A}.
Arguments Next {X A B C} fn rest.

(** Modelled from the spec: [pipe] ([src/pipe.ts] is not among the sources,
    only its test and its callers are).  It accepts a start value and zero or
    more unary functions and applies them strictly left to right, each
    function receiving the prior step's output; with zero functions it
    returns the start value unchanged; a failure raised inside a step
    propagates and aborts the remaining chain. *)
Fixpoint pipe {X A C} (value : A) (fns : Fns X A C) {struct fns} : Completion X C :=
  match fns in Fns _ A0 C0 return A0 -> Completion X C0 with
  | Last => fun start => ret start
  | Next fn rest => fun input => output <- fn input ;; pipe output rest
  end value.

(** The functions of [src/pipe.test.ts]; the numbers of the test are
    integers. *)
Definition addOne {X} (a : Z) : Completion X Z := ret (a + 1)%Z.

Definition multiplyByTwo {X} (a : Z) : Completion X Z := ret (a * 2)%Z.

End Pipe.

(** ** src/math: constants.ts, utils.ts, clamp.ts, ints.ts

    The numbers of this part are the integers among JavaScript's numbers,
    written in [Z]; the floating-point constants and [f32] are left out. *)

Module Math.

Local Open Scope Z_scope.

(** ECMAScript's ToInt32: the operands and the result of [&], [|] and [<<]
    on numbers are signed 32-bit integers. *)
Definition toInt32 (z : Z) : Z := (z + 2147483648) mod 4294967296 - 2147483648.

(** [a & b] on numbers. *)
Definition bitand (a b : Z) : Z := toInt32 (Z.land (toInt32 a) (toInt32 b)).

(** [a << count] on numbers, for a count below 32. *)
Definition shiftLeft (a count : Z) : Z := toInt32 (toInt32 a * 2 ^ count).

Definition I8_MIN : Z := -128.
Definition I8_MAX : Z := 127.
Definition I16_MIN : Z := -32768.
Definition I16_MAX : Z := 32767.
Definition I32_MIN : Z := -2147483648.
Definition I32_MAX : Z := 2147483647.
Definition U8_MIN : Z := 0.
Definition U8_MAX : Z := 255.
Definition U16_MIN : Z := 0.
Definition U16_MAX : Z := 65535.
Definition U32_MIN : Z := 0.
Definition U32_MAX : Z := 4294967295.

Definition isBetweenInclusive (min max value : Z) : bool :=
  (value >=? min) && (value <=? max).

Definition isBetweenExclusive (min max value : Z) : bool :=
  (value >? min) && (value <? max).

Definition clamp (min max value : Z) : Z := Z.min (Z.max value min) max.

Definition clampI8 : Z -> Z := clamp I8_MIN I8_MAX.
Definition clampI16 : Z -> Z := clamp I16_MIN I16_MAX.
Definition clampI32 : Z -> Z := clamp I32_MIN I32_MAX.
Definition clampU8 : Z -> Z := clamp U8_MIN U8_MAX.
Definition clampU16 : Z -> Z := clamp U16_MIN U16_MAX.
Definition clampU32 : Z -> Z := clamp U32_MIN U32_MAX.

(** The argument [value: number | bigint] of the integer constructors;
    [typeof value === "bigint"] tells the two apart.  On a bigint [&] is
    exact; [Number(..)] of the small result is exact as well.  The brands are
    compile-time only. *)
Inductive NumberOrBigint : Type :=
| Number (value : Z)
| BigInt (value : Z).

Definition i8 (value : NumberOrBigint) : Z :=
  match value with
  | BigInt value => Z.land value 0x7f - Z.land value 0x80
  | Number value => bitand value 0x7f - bitand value 0x80
  end.

Definition isI8 : Z -> bool := isBetweenInclusive I8_MIN I8_MAX.

Definition i16 (value : NumberOrBigint) : Z :=
  match value with
  | BigInt value => Z.land value 0x7fff - Z.land value 0x8000
  | Number value => bitand value 0x7fff - bitand value 0x8000
  end.

Definition isI16 : Z -> bool := isBetweenInclusive I16_MIN I16_MAX.

Definition i32 (value : NumberOrBigint) : Z :=
  match value with
  | BigInt value => Z.land value 0x7fffffff - Z.land value 0x80000000
  | Number value => bitand value 0x7fffffff - bitand value 0x80000000
  end.

Definition isI32 : Z -> bool := isBetweenInclusive I32_MIN I32_MAX.

Definition u8 (value : NumberOrBigint) : Z :=
  match value with
  | BigInt value => Z.land value 0xff
  | Number value => bitand value 0xff
  end.

Definition isU8 : Z -> bool := isBetweenInclusive U8_MIN U8_MAX.

Definition u16 (value : NumberOrBigint) : Z :=
  match value with
  | BigInt value => Z.land value 0xffff
  | Number value => bitand value 0xffff
  end.

Definition isU16 : Z -> bool := isBetweenInclusive U16_MIN U16_MAX.

Definition u32 (value : NumberOrBigint) : Z :=
  match value with
  | BigInt value => Z.land value 0xffffffff
  | Number value => bitand value 0xffffffff
  end.

Definition isU32 : Z -> bool := isBetweenInclusive U32_MIN U32_MAX.

End Math.

(** ** src/comparable: get-hash-code.ts and Comparable.ts *)

Module Comparable.

Import Math.

Local Open Scope Z_scope.

(** The values handed to [getHashCode], by [typeof]: strings hold code units
    below 256, numbers are integers, a symbol carries its description, a
    function the text [toString()] returns, an object its own enumerable
    properties (one entry per key). *)
#[local] Unset Elimination Schemes.

Inductive JsValue : Type :=
| JsNull
| JsUndefined
| JsBoolean (value : bool)
| JsNumber (value : Z)
| JsBigInt (value : Z)
| JsString (value : string)
| JsSymbol (description : string)
| JsFunction (source : string)
| JsArray (items : list JsValue)
| JsObject (properties : list (string * JsValue)).

#[local] Set Elimination Schemes.

(** [str.charCodeAt(i)] *)
Definition charCode (char : Ascii.ascii) : Z := Z.of_N (Ascii.N_of_ascii char).

(** The loop of [hashString], from index [i] on, with the current [hash]. *)
Fixpoint hashString_from (str : string) (hash : Z) : Z :=
  match str with
  | EmptyString => hash
  | String char rest =>
      hashString_from rest (toInt32 (shiftLeft hash 5 - hash + charCode char))
  end.

Definition hashString (str : string) : Z := hashString_from str 0.

(** [symbol.toString()] *)
Definition Symbol_toString (description : string) : string :=
  ("Symbol(" ++ description ++ ")")%string.

(** [Object.keys(obj)] *)
Definition Object_keys {V} (obj : list (string * V)) : list string :=
  List.map fst obj.

(** [obj[key]]: the first entry under [key], [missing] when there is none. *)
Fixpoint Object_get {V} (missing : V) (key : string) (obj : list (string * V)) : V :=
  match obj with
  | nil => missing
  | (k, v) :: rest => if (k =? key)%string then v else Object_get missing key rest
  end.

(** [keys.sort()]: the default order compares strings code unit by code
    unit. *)
Fixpoint sort_insert (key : string) (sorted : list string) : list string :=
  match sorted with
  | nil => key :: nil
  | k :: rest => if String.leb key k then key :: k :: rest else k :: sort_insert key rest
  end.

Fixpoint sort (keys : list string) : list string :=
  match keys with
  | nil => nil
  | key :: rest => sort_insert key (sort rest)
  end.

(** The reducer of [hashArray]. *)
Definition hashArray_step (acc itemHash : Z) : Z := shiftLeft acc 5 - acc + itemHash.

(** The reducer of [hashObject]. *)
Definition hashObject_step (acc keyHash valueHash : Z) : Z :=
  shiftLeft acc 5 - acc + keyHash + valueHash.

(** [hashObject] over the hash codes of the property values. *)
Definition hashObject_of (valueHashes : list (string * Z)) : Z :=
  List.fold_left
    (fun acc key => hashObject_step acc (hashString key) (Object_get 0 key valueHashes))
    (sort (Object_keys valueHashes)) 0.

(** [getHashCode]; the branch [Math.floor(value * 1000000)] of a number that
    is not an integer (also [NaN] and the infinities) is outside [JsValue],
    so every hash code here is an integer, and what is proved about
    [getHashCode] holds for values without such a number.  The reducers of
    [hashArray] and [hashObject] are evaluated exactly, as the source's
    doubles are below 2^53.  The hash codes of an object's values are
    computed before its keys are sorted, which is the same number
    ([getHashCode_JsObject] below). *)
Fixpoint getHashCode (value : JsValue) : Z :=
  match value with
  | JsNull => 0
  | JsBoolean value => if value then 1 else 0
  | JsNumber value => toInt32 value
  | JsString value => hashString value
  | JsSymbol description => hashString (Symbol_toString description)
  | JsFunction source => hashString source
  | JsArray items =>
      List.fold_left (fun acc item => hashArray_step acc (getHashCode item)) items 0
  | JsObject properties =>
      hashObject_of (List.map (fun '(key, v) => (key, getHashCode v)) properties)
  | JsUndefined | JsBigInt _ => 0
  end.

Definition hashArray (arr : list JsValue) : Z :=
  List.fold_left (fun acc item => hashArray_step acc (getHashCode item)) arr 0.

Definition hashObject (obj : list (string * JsValue)) : Z :=
  List.fold_left
    (fun acc key =>
       hashObject_step acc (hashString key) (getHashCode (Object_get JsUndefined key obj)))
    (sort (Object_keys obj)) 0.

(** [Comparable.ts] *)
Record Comparable : Type := { _hashCode : Z }.

Definition createComparable (value : JsValue) : Comparable :=
  {| _hashCode := getHashCode value |}.

Definition equals (b a : Comparable) : bool := _hashCode a =? _hashCode b.

Definition compare (b a : Comparable) : Z :=
  if _hashCode a <? _hashCode b then -1
  else if _hashCode a >? _hashCode b then 1
  else 0.

End Comparable.

(** ** The base-31 polynomial the hash functions are compared with *)

Module Horner.

Local Open Scope Z_scope.

(** [c0 * 31^(n-1) + c1 * 31^(n-2) + ... + c(n-1)], over the integers. *)
Definition polynomial31 (codes : list Z) : Z :=
  List.fold_left (fun acc code => 31 * acc + code) codes 0.

(** The code units of a string. *)
Definition charCodes (str : string) : list Z :=
  List.map Comparable.charCode (list_ascii_of_string str).

End Horner.

(** ** Callbacks that return normally *)

Module Callback.

(** A callback that computes [f] and never throws. *)
Definition total {X A B} (f : A -> B) : A -> Completion X B :=
  fun a => Return (f a).

(** A zero-argument closure returning [b]. *)
Definition thunk {X B} (b : B) : unit -> Completion X B :=
  fun _ => Return b.

(** Whether a call completed normally. *)
Definition completes {X A} (c : Completion X A) : bool :=
  match c with
  | Return _ => true
  | Throw _ => false
  end.

(** What a call threw, if it threw. *)
Definition thrownValue {X A} (c : Completion X A) : option X :=
  match c with
  | Return _ => None
  | Throw thrown => Some thrown
  end.

End Callback.

Import Callback.

(** * Properties *)

Ltac by_variant self := destruct self; simpl; try reflexivity.

(** ** The Completion monad *)

Lemma Completion_bind_Return {X A B} (a : A) (k : A -> Completion X B) :
  (x <- Return a ;; k x) = k a.
Proof. reflexivity. Qed.

Lemma Completion_bind_Throw {X A B} (thrown : X) (k : A -> Completion X B) :
  (x <- Throw thrown ;; k x) = Throw thrown.
Proof. reflexivity. Qed.

Lemma Completion_bind_ret {X A} (c : Completion X A) :
  (x <- c ;; ret x) = c.
Proof. by_variant c. Qed.

Lemma completes_bind {X A B} (c : Completion X A) (k : A -> Completion X B) :
  completes (x <- c ;; k x) =
  match c with
  | Return a => completes (k a)
  | Throw _ => false
  end.
Proof. by_variant c. Qed.

(** ** Option *)

Lemma Option_isSome_isNone {T} (self : Option.Option T) :
  Option.isSome self = negb (Option.isNone self).
Proof. by_variant self. Qed.

(** C1. [Option.mapOr] and [Option.mapOrElse] wrap their outcome in [Some]:
    on [Some(v)] they return [Some(fn(v))], on [None] they return
    [Some(defaultValue)], respectively [Some(defaultFn())]; whatever the
    receiver, the value returned is a [Some], never a bare value. *)
Theorem Option_mapOr_mapOrElse_return_Some :
  forall (X T U : Type) (defaultValue : U) (defaultFn : unit -> Completion X U)
         (fn : T -> Completion X U) (v : T),
    Option.mapOr defaultValue fn (Option.Some v) = (u <- fn v ;; ret (Option.Some u))
    /\ Option.mapOr defaultValue fn Option.None = Return (Option.Some defaultValue)
    /\ Option.mapOrElse defaultFn fn (Option.Some v) = (u <- fn v ;; ret (Option.Some u))
    /\ Option.mapOrElse defaultFn fn Option.None
       = (u <- defaultFn tt ;; ret (Option.Some u))
    /\ (forall self : Option.Option T,
          exists c : Completion X U,
            Option.mapOr defaultValue fn self = (u <- c ;; ret (Option.Some u)))
    /\ (forall self : Option.Option T,
          exists c : Completion X U,
            Option.mapOrElse defaultFn fn self = (u <- c ;; ret (Option.Some u))).
Proof.
  intros X T U defaultValue defaultFn fn v.
  repeat split; try reflexivity.
  - intros [value|].
    + exists (fn value). reflexivity.
    + exists (Return defaultValue). reflexivity.
  - intros [value|].
    + exists (fn value). reflexivity.
    + exists (defaultFn tt). reflexivity.
Qed.

(** With callbacks that return normally the equations of C1 read as in the
    source's examples. *)
Lemma Option_mapOr_total {X T U} (defaultValue : U) (f : T -> U) (self : Option.Option T) :
  Option.mapOr (X := X) defaultValue (total f) self
  = Return (Option.Some (match self with
                         | Option.Some v => f v
                         | Option.None => defaultValue
                         end)).
Proof. by_variant self. Qed.

Example Option_mapOr_example :
  Option.mapOr (X := Error) 42%Z (total (fun v => v * 3)%Z) (Option.Some 2%Z)
  = Return (Option.Some 6%Z)
  /\ Option.mapOr (X := Error) 42%Z (total (fun v => v * 3)%Z) Option.None
     = Return (Option.Some 42%Z).
Proof. split; reflexivity. Qed.

(** ** Result *)

(** C2. [Result.mapOr] and [Result.mapOrElse] return the bare outcome of the
    function, of the default or of the error function; it is not wrapped in
    [Ok] again, as [Result.map] does, nor in a variant, as [Option.mapOr]
    does with [Some]. *)
Theorem Result_mapOr_mapOrElse_return_bare :
  forall (X T U E : Type) (defaultValue : U) (fnWhenErr : E -> Completion X U)
         (f : T -> Completion X U) (x : T) (e : E),
    Result.mapOr defaultValue f (Result.Ok x : Result.Result T E) = f x
    /\ Result.mapOr defaultValue f (Result.Err e : Result.Result T E) = Return defaultValue
    /\ Result.mapOrElse fnWhenErr f (Result.Ok x) = f x
    /\ Result.mapOrElse fnWhenErr f (Result.Err e : Result.Result T E) = fnWhenErr e
    /\ Result.map f (Result.Ok x : Result.Result T E)
       = (u <- Result.mapOr defaultValue f (Result.Ok x : Result.Result T E) ;;
          ret (Result.Ok u))
    /\ Option.mapOr defaultValue f (Option.Some x)
       = (u <- Result.mapOr defaultValue f (Result.Ok x : Result.Result T E) ;;
          ret (Option.Some u))
    /\ Option.mapOr defaultValue f Option.None
       = (u <- Result.mapOr defaultValue f (Result.Err e : Result.Result T E) ;;
          ret (Option.Some u)).
Proof.
  intros. repeat split.
Qed.

Example Result_mapOr_example :
  Result.mapOr (X := Error) 0%Z (total (fun v => v + 1)%Z)
    (Result.Ok 42%Z : Result.Result Z string) = Return 43%Z
  /\ Result.mapOr (X := Error) 0%Z (total (fun v => v + 1)%Z)
       (Result.Err "error" : Result.Result Z string) = Return 0%Z.
Proof. split; reflexivity. Qed.

(** C10. [Result.unwrap] on an [Err] throws [new Error] with the fixed
    message "Called `unwrap` on an `Err` value", whatever the error payload,
    and not the payload itself; [Result.unwrapErr] on an [Ok] throws
    [new Error] with the fixed message "Called `unwrapErr` on an `Ok` value". *)
Theorem Result_unwrap_unwrapErr_fixed_message :
  (forall (T E : Type) (e : E),
      Result.unwrap (Result.Err e : Result.Result T E)
      = Throw (new_Error "Called `unwrap` on an `Err` value"))
  /\ (forall (T E : Type) (e1 e2 : E),
         Result.unwrap (Result.Err e1 : Result.Result T E)
         = Result.unwrap (Result.Err e2 : Result.Result T E))
  /\ Result.unwrap (Result.Err (new_Error "emergency failure") : Result.Result Z Error)
     <> Throw (new_Error "emergency failure")
  /\ (forall (T E : Type) (x : T),
         Result.unwrapErr (Result.Ok x : Result.Result T E)
         = Throw (new_Error "Called `unwrapErr` on an `Ok` value"))
  /\ (forall (T E : Type) (x1 x2 : T),
         Result.unwrapErr (Result.Ok x1 : Result.Result T E)
         = Result.unwrapErr (Result.Ok x2 : Result.Result T E)).
Proof.
  repeat split; try reflexivity.
  simpl. intros H. inversion H.
Qed.

Lemma Result_unwrap_Ok {T E} (x : T) :
  Result.unwrap (Result.Ok x : Result.Result T E) = Return x.
Proof. reflexivity. Qed.

Lemma Result_unwrapErr_Err {T E} (e : E) :
  Result.unwrapErr (Result.Err e : Result.Result T E) = Return e.
Proof. reflexivity. Qed.

(** ** Option: the throwing accessors *)

(** C4. [Option.unwrap] returns the payload of a [Some] and throws
    [new Error] with the message "Called `Option.unwrap()` on a `None` value"
    on [None]; [Option.expect(msg)] returns the payload of a [Some] and
    throws [new Error(msg)] on [None].  No other combinator throws unless a
    callback it calls throws, and then it throws what that callback threw:
    for each combinator that takes a callback, the value thrown is the value
    thrown by the one callback it calls on that receiver, and nothing is
    thrown on the receiver on which it calls none; in particular each
    completes whenever its callbacks do.  The combinators that take no
    callback ([and], [flatten], [isNone], [isSome], [okOr], [or],
    [transpose], [unwrapOr], [unzip], [xor], [zip]) contain no [throw] and
    call nothing, so they are total functions. *)
Theorem Option_throws_only_in_unwrap_expect_or_a_callback :
  (forall (T : Type) (x : T), Option.unwrap (Option.Some x) = Return x)
  /\ (forall T : Type,
         Option.unwrap (Option.None : Option.Option T)
         = Throw (new_Error "Called `Option.unwrap()` on a `None` value"))
  /\ (forall (T : Type) (msg : string),
         Option.expect msg (Option.None : Option.Option T) = Throw (new_Error msg))
  /\ (forall (T : Type) (msg : string) (x : T),
         Option.expect msg (Option.Some x) = Return x)
  /\ (forall (X T U R : Type) (self : Option.Option T) (other : Option.Option U)
             (toOption : T -> Completion X (Option.Option U))
             (toBool : T -> Completion X bool) (fn : T -> Completion X U)
             (combine : T -> U -> Completion X R)
             (defaultFn : unit -> Completion X U)
             (orFn : unit -> Completion X (Option.Option T))
             (elseFn : unit -> Completion X T) (u : U),
         thrownValue (Option.andThen toOption self)
         = match self with
           | Option.Some v => thrownValue (toOption v)
           | Option.None => None
           end
         /\ thrownValue (Option.filter toBool self)
            = match self with
              | Option.Some v => thrownValue (toBool v)
              | Option.None => None
              end
         /\ thrownValue (Option.inspect fn self)
            = match self with
              | Option.Some v => thrownValue (fn v)
              | Option.None => None
              end
         /\ thrownValue (Option.isNoneOr toBool self)
            = match self with
              | Option.Some v => thrownValue (toBool v)
              | Option.None => None
              end
         /\ thrownValue (Option.isSomeAnd toBool self)
            = match self with
              | Option.Some v => thrownValue (toBool v)
              | Option.None => None
              end
         /\ thrownValue (Option.map fn self)
            = match self with
              | Option.Some v => thrownValue (fn v)
              | Option.None => None
              end
         /\ thrownValue (Option.mapOr u fn self)
            = match self with
              | Option.Some v => thrownValue (fn v)
              | Option.None => None
              end
         /\ thrownValue (Option.mapOrElse defaultFn fn self)
            = match self with
              | Option.Some v => thrownValue (fn v)
              | Option.None => thrownValue (defaultFn tt)
              end
         /\ thrownValue (Option.okOrElse defaultFn self)
            = match self with
              | Option.Some _ => None
              | Option.None => thrownValue (defaultFn tt)
              end
         /\ thrownValue (Option.orElse orFn self)
            = match self with
              | Option.Some _ => None
              | Option.None => thrownValue (orFn tt)
              end
         /\ thrownValue (Option.unwrapOrElse elseFn self)
            = match self with
              | Option.Some _ => None
              | Option.None => thrownValue (elseFn tt)
              end
         /\ thrownValue (Option.zipWith other combine self)
            = match self, other with
              | Option.Some a, Option.Some b => thrownValue (combine a b)
              | _, _ => None
              end)
  /\ (forall (X T U R : Type) (self : Option.Option T) (other : Option.Option U)
             (toOption : T -> Option.Option U) (toBool : T -> bool) (f : T -> U)
             (g : T -> U -> R) (u : U) (e : U) (t : T) (fallback : Option.Option T),
         completes (Option.andThen (X := X) (total toOption) self) = true
         /\ completes (Option.filter (X := X) (total toBool) self) = true
         /\ completes (Option.inspect (X := X) (total f) self) = true
         /\ completes (Option.isNoneOr (X := X) (total toBool) self) = true
         /\ completes (Option.isSomeAnd (X := X) (total toBool) self) = true
         /\ completes (Option.map (X := X) (total f) self) = true
         /\ completes (Option.mapOr (X := X) u (total f) self) = true
         /\ completes (Option.mapOrElse (X := X) (thunk u) (total f) self) = true
         /\ completes (Option.okOrElse (X := X) (thunk e) self) = true
         /\ completes (Option.orElse (X := X) (thunk fallback) self) = true
         /\ completes (Option.unwrapOrElse (X := X) (thunk t) self) = true
         /\ completes (Option.zipWith (X := X) other (fun a b => Return (g a b)) self)
            = true).
Proof.
  split; [reflexivity|].
  split; [reflexivity|].
  split; [reflexivity|].
  split; [reflexivity|].
  split.
  - intros X T U R self other toOption toBool fn combine defaultFn orFn elseFn u.
    destruct self as [v|]; simpl.
    + repeat split; try reflexivity.
      * destruct (toBool v) as [[|]|]; reflexivity.
      * destruct (fn v); reflexivity.
      * destruct (toBool v) as [[|]|]; reflexivity.
      * destruct (fn v); reflexivity.
      * destruct (fn v); reflexivity.
      * destruct (fn v); reflexivity.
      * destruct other as [b|]; [|reflexivity].
        unfold Option.zipWith. simpl. destruct (combine v b); reflexivity.
    + repeat split; try reflexivity.
      * destruct (defaultFn tt); reflexivity.
      * destruct (defaultFn tt); reflexivity.
  - intros X T U R self other toOption toBool f g u e t fallback.
    repeat split; try reflexivity.
    all: try (by_variant self; fail).
    + destruct self; simpl; [destruct (toBool value)|]; reflexivity.
    + destruct self; simpl; [destruct (toBool value)|]; reflexivity.
    + destruct self, other; reflexivity.
Qed.

(** A callback that throws makes the combinator that calls it throw: [map]
    on a [Some] with a function that throws [new Error("oh no!")] throws
    that error, as do [filter], [andThen] and [zipWith]. *)
Lemma Option_map_throws_what_its_callback_throws :
  Option.map (fun _ : Z => Throw (new_Error "oh no!") : Completion Error Z)
    (Option.Some 5%Z)
  = Throw (new_Error "oh no!")
  /\ completes
       (Option.map (fun _ : Z => Throw (new_Error "oh no!") : Completion Error Z)
          (Option.Some 5%Z))
     = false
  /\ Option.filter (fun _ : Z => Throw (new_Error "oh no!") : Completion Error bool)
       (Option.Some 5%Z)
     = Throw (new_Error "oh no!")
  /\ Option.andThen
       (fun _ : Z => Throw (new_Error "oh no!") : Completion Error (Option.Option Z))
       (Option.Some 5%Z)
     = Throw (new_Error "oh no!")
  /\ Option.zipWith (Option.Some 7%Z)
       (fun _ _ : Z => Throw (new_Error "oh no!") : Completion Error Z)
       (Option.Some 5%Z)
     = Throw (new_Error "oh no!").
Proof. repeat split. Qed.

(** With arbitrary callbacks, a combinator completes normally exactly when
    the callback it calls does (and always when it calls none): a throw can
    only come out of a callback. *)
Lemma Option_combinators_complete_with_callbacks {X T U R}
  (self : Option.Option T) (other : Option.Option U)
  (toOption : T -> Completion X (Option.Option U)) (toBool : T -> Completion X bool)
  (fn : T -> Completion X U) (combine : T -> U -> Completion X R)
  (defaultFn : unit -> Completion X U) (orFn : unit -> Completion X (Option.Option T))
  (elseFn : unit -> Completion X T) (u : U) :
  let called {B} (k : T -> Completion X B) :=
    match self with
    | Option.Some v => completes (k v)
    | Option.None => true
    end in
  let fallback {B} (k : unit -> Completion X B) :=
    match self with
    | Option.Some _ => true
    | Option.None => completes (k tt)
    end in
  completes (Option.andThen toOption self) = called toOption
  /\ completes (Option.filter toBool self) = called toBool
  /\ completes (Option.inspect fn self) = called fn
  /\ completes (Option.isNoneOr toBool self) = called toBool
  /\ completes (Option.isSomeAnd toBool self) = called toBool
  /\ completes (Option.map fn self) = called fn
  /\ completes (Option.mapOr u fn self) = called fn
  /\ completes (Option.mapOrElse defaultFn fn self)
     = (called fn && fallback defaultFn)
  /\ completes (Option.okOrElse defaultFn self) = fallback defaultFn
  /\ completes (Option.orElse orFn self) = fallback orFn
  /\ completes (Option.unwrapOrElse elseFn self) = fallback elseFn
  /\ completes (Option.zipWith other combine self)
     = match self, other with
       | Option.Some a, Option.Some b => completes (combine a b)
       | _, _ => true
       end.
Proof.
  intros called fallback. subst called fallback.
  destruct self as [v|]; simpl.
  - repeat split; try reflexivity.
    + destruct (toBool v) as [[|]|]; reflexivity.
    + destruct (fn v); reflexivity.
    + destruct (toBool v) as [[|]|]; reflexivity.
    + destruct (fn v); reflexivity.
    + destruct (fn v); reflexivity.
    + destruct (fn v); reflexivity.
    + destruct other as [b|]; [|reflexivity].
      unfold Option.zipWith. simpl. destruct (combine v b); reflexivity.
  - repeat split; try reflexivity.
    + destruct (defaultFn tt); reflexivity.
    + destruct (defaultFn tt); reflexivity.
Qed.

(** What the callback-taking combinators return when their callbacks return
    normally. *)
Lemma Option_map_total {X T U} (f : T -> U) (self : Option.Option T) :
  Option.map (X := X) (total f) self
  = Return (match self with
            | Option.Some v => Option.Some (f v)
            | Option.None => Option.None
            end).
Proof. by_variant self. Qed.

Lemma Option_filter_total {X T} (p : T -> bool) (self : Option.Option T) :
  Option.filter (X := X) (total p) self
  = Return (match self with
            | Option.Some v => if p v then self else Option.None
            | Option.None => Option.None
            end).
Proof.
  destruct self as [v|]; simpl; [|reflexivity].
  unfold total. simpl. destruct (p v); reflexivity.
Qed.

(** The lazy combinators do not call the closure of the branch they skip:
    a closure that throws is harmless on a [Some]. *)
Lemma Option_lazy_default_not_called {X T U} (thrown : X) (fn : T -> Completion X U) (v : T) :
  Option.mapOrElse (fun _ => Throw thrown) fn (Option.Some v)
  = (u <- fn v ;; ret (Option.Some u))
  /\ Option.orElse (fun _ => Throw thrown) (Option.Some v) = Return (Option.Some v)
  /\ Option.unwrapOrElse (fun _ => Throw thrown) (Option.Some v) = Return v
  /\ Option.okOrElse (E := U) (fun _ => Throw thrown) (Option.Some v)
     = Return (Result.Ok v).
Proof. repeat split. Qed.

(** A throw inside a callback propagates through the combinator. *)
Lemma Option_map_propagates {X T U} (thrown : X) (v : T) :
  Option.map (U := U) (fun _ => Throw thrown) (Option.Some v) = Throw thrown.
Proof. reflexivity. Qed.

(** ** Option: conversions and combinations *)

(** C5. [Option.transpose] maps [Some(Ok(v))] to [Ok(Some(v))],
    [Some(Err(e))] to [Err(e)] and [None] to [Ok(None)]. *)
Theorem Option_transpose_cases :
  forall (T E : Type) (v : T) (e : E),
    Option.transpose (Option.Some (Result.Ok v : Result.Result T E))
    = Result.Ok (Option.Some v)
    /\ Option.transpose (Option.Some (Result.Err e : Result.Result T E))
       = Result.Err e
    /\ Option.transpose (Option.None : Option.Option (Result.Result T E))
       = Result.Ok Option.None.
Proof.
  intros T E v e. split; [|split].
  - unfold Option.transpose, Result.isOk. simpl. reflexivity.
  - unfold Option.transpose, Result.isOk, Result.isErr. simpl. reflexivity.
  - reflexivity.
Qed.

(** No failure is synthesized for absence: the result is an [Err] only when
    the receiver holds one. *)
Lemma Option_transpose_isErr {T E} (self : Option.Option (Result.Result T E)) :
  Result.isErr (Option.transpose self)
  = match self with
    | Option.Some value => Result.isErr value
    | Option.None => false
    end.
Proof. destruct self as [[v|e]|]; reflexivity. Qed.

(** C6. [xor(other)(self)] is a [Some] exactly when exactly one of [self]
    and [other] is a [Some], and it is that one: two [Some]s give [None],
    a [Some] and a [None] give the [Some], two [None]s give [None]. *)
Theorem Option_xor_exactly_one :
  forall (T : Type) (self other : Option.Option T) (x y : T),
    Option.isSome (Option.xor other self)
    = xorb (Option.isSome self) (Option.isSome other)
    /\ Option.xor (Option.Some y) (Option.Some x) = Option.None
    /\ Option.xor Option.None (Option.Some x) = Option.Some x
    /\ Option.xor (Option.Some y) Option.None = Option.Some y
    /\ Option.xor Option.None (Option.None : Option.Option T) = Option.None.
Proof.
  intros T self other x y.
  split; [destruct self, other; reflexivity | repeat split].
Qed.

(** C7. [unzip] undoes [zip] on two [Some]s; [zip] returns [None] as soon as
    one side is [None]; [unzip(None)] is [[None, None]]. *)
Theorem Option_zip_unzip_round_trip :
  forall (T U : Type) (a : T) (b : U) (self : Option.Option T) (other : Option.Option U),
    Option.unzip (Option.zip (Option.Some b) (Option.Some a))
    = (Option.Some a, Option.Some b)
    /\ Option.zip other (Option.None : Option.Option T) = Option.None
    /\ Option.zip (Option.None : Option.Option U) self = Option.None
    /\ Option.isSome (Option.zip other self)
       = Option.isSome self && Option.isSome other
    /\ Option.unzip (Option.None : Option.Option (T * U)) = (Option.None, Option.None).
Proof.
  intros T U a b self other.
  split; [reflexivity|].
  split; [reflexivity|].
  split; [destruct self; reflexivity|].
  split; [destruct self, other; reflexivity | reflexivity].
Qed.

(** [zip] followed by [unzip] gives back both sides exactly when both are
    [Some], and two [None]s otherwise. *)
Lemma Option_unzip_zip {T U} (self : Option.Option T) (other : Option.Option U) :
  Option.unzip (Option.zip other self)
  = if Option.isSome self && Option.isSome other
    then (self, other)
    else (Option.None, Option.None).
Proof. destruct self, other; reflexivity. Qed.

(** C8. [Option.flatten] removes one level of nesting per call. *)
Theorem Option_flatten_one_level :
  forall (T : Type) (x : T),
    Option.flatten (Option.Some (Option.Some x)) = Option.Some x
    /\ Option.flatten (Option.Some (Option.None : Option.Option T)) = Option.None
    /\ Option.flatten (Option.None : Option.Option (Option.Option T)) = Option.None
    /\ Option.flatten (Option.Some (Option.Some (Option.Some x)))
       = Option.Some (Option.Some x)
    /\ Option.flatten (Option.flatten (Option.Some (Option.Some (Option.Some x))))
       = Option.Some x.
Proof. intros T x. repeat split. Qed.

(** ** pipe *)

(** The first function receives the start value, the remaining ones its
    output. *)
Lemma Pipe_run_Next {X A B C} (fn : A -> Completion X B) (rest : Pipe.Fns X B C) (x : A) :
  Pipe.pipe x (Pipe.Next fn rest) = (output <- fn x ;; Pipe.pipe output rest).
Proof. reflexivity. Qed.

(** C9. [pipe] applies its functions left to right, each one receiving the
    output of the one before, and returns the last output; with no function
    it returns the start value; [pipe(1, addOne, multiplyByTwo)] is [4]. *)
Theorem pipe_left_to_right :
  (forall (X A : Type) (x : A), Pipe.pipe (X := X) x Pipe.Last = Return x)
  /\ (forall (X A B C : Type) (f : A -> B) (rest : Pipe.Fns X B C) (x : A),
         Pipe.pipe x (Pipe.Next (total f) rest) = Pipe.pipe (f x) rest)
  /\ (forall (X A B C : Type) (f : A -> B) (g : B -> C) (x : A),
         Pipe.pipe (X := X) x (Pipe.Next (total f) (Pipe.Next (total g) Pipe.Last))
         = Return (g (f x)))
  /\ Pipe.pipe (X := Error) 1%Z (Pipe.Next Pipe.addOne (Pipe.Next Pipe.multiplyByTwo Pipe.Last))
     = Return 4%Z.
Proof. repeat split. Qed.

(** The order matters: the functions of the test applied the other way
    round give another number. *)
Example pipe_other_order :
  Pipe.pipe (X := Error) 1%Z (Pipe.Next Pipe.multiplyByTwo (Pipe.Next Pipe.addOne Pipe.Last))
  = Return 3%Z.
Proof. reflexivity. Qed.

(** A step that throws aborts the chain: the later functions are not run. *)
Lemma pipe_fail_fast {X A B C} (thrown : X) (rest : Pipe.Fns X B C) (x : A) :
  Pipe.pipe x (Pipe.Next (fun _ => Throw thrown) rest) = Throw thrown.
Proof. reflexivity. Qed.

Example pipe_Option_chain :
  Pipe.pipe (X := Error) (Option.Some 2%Z)
    (Pipe.Next (Option.map (total (fun v => v * 3)%Z))
       (Pipe.Next (Option.mapOr 42%Z (total (fun v => v + 1)%Z))
          (Pipe.Next Option.unwrap Pipe.Last)))
  = Return 7%Z.
Proof. reflexivity. Qed.

(** ** The capture constructors *)

Section Capture.

Context {X T E : Type}.

(** [tryCatch(fn)] never throws, whatever [fn] does. *)
Lemma tryCatch_Fn (fn : unit -> Completion X T) :
  Result.tryCatch (Result.Fn fn)
  = Return (match fn tt with
            | Return value => Result.Ok value
            | Throw thrown =>
                Result.Err (UnknownException.new_UnknownException
                              {| UnknownException.error := thrown |})
            end).
Proof. unfold Result.tryCatch. simpl. destruct (fn tt); reflexivity. Qed.

(** [tryCatch({ try, catch })] maps what [try] throws through [catch]. *)
Lemma tryCatch_Obj (try_ : unit -> Completion X T) (catch_ : X -> Completion X E) :
  Result.tryCatch (Result.Obj try_ catch_)
  = match try_ tt with
    | Return value => Return (Result.Ok value)
    | Throw thrown => e <- catch_ thrown ;; ret (Result.Err e)
    end.
Proof. unfold Result.tryCatch. simpl. destruct (try_ tt); reflexivity. Qed.

(** [tryPromise(fn)]: what [fn] throws before returning its promise is
    thrown on; a promise it returns is never turned into a rejected one. *)
Lemma tryPromise_FnP (fn : unit -> Completion X (Promise X T)) :
  Result.tryPromise (Result.FnP fn)
  = match fn tt with
    | Return (Fulfilled value) => Return (Fulfilled (Result.Ok value))
    | Return (Rejected reason) =>
        Return (Fulfilled (Result.Err (UnknownException.new_UnknownException
                                         {| UnknownException.error := reason |})))
    | Return Pending => Return Pending
    | Throw thrown => Throw thrown
    end.
Proof.
  unfold Result.tryPromise. destruct (fn tt) as [p|thrown]; simpl; [|reflexivity].
  destruct p; reflexivity.
Qed.

(** [tryPromise({ try, catch })] maps a rejection's reason through [catch]. *)
Lemma tryPromise_ObjP (try_ : unit -> Completion X (Promise X T))
  (catch_ : X -> Completion X E) :
  Result.tryPromise (Result.ObjP try_ catch_)
  = match try_ tt with
    | Return (Fulfilled value) => Return (Fulfilled (Result.Ok value))
    | Return (Rejected reason) =>
        Return (settle (e <- catch_ reason ;; ret (Result.Err e)))
    | Return Pending => Return Pending
    | Throw thrown => Throw thrown
    end.
Proof.
  unfold Result.tryPromise. destruct (try_ tt) as [p|thrown]; simpl; [|reflexivity].
  destruct p; reflexivity.
Qed.

End Capture.

Example tryCatch_returns_5 :
  Result.tryCatch (X := Error) (Result.Fn (fun _ => Return 5%Z)) = Return (Result.Ok 5%Z).
Proof. reflexivity. Qed.

Example tryCatch_generic_error :
  Result.tryCatch (T := Z) (Result.Fn (fun _ => Throw (new_Error "oh")))
  = Return (Result.Err {| TaggedError._tag := "UnknownException";
                          TaggedError.args := {| UnknownException.error := new_Error "oh" |} |}).
Proof. reflexivity. Qed.

Example tryCatch_custom_error :
  Result.tryCatch (T := Z)
    (Result.Obj (fun _ => Throw (new_Error "oh")) (fun _ => Return "failed"))
  = Return (Result.Err "failed").
Proof. reflexivity. Qed.

Example tryCatch_captures_unwrap :
  Result.tryCatch (Result.Fn (fun _ => Option.unwrap (Option.None : Option.Option Z)))
  = Return (Result.Err (UnknownException.new_UnknownException
                          {| UnknownException.error :=
                               new_Error "Called `Option.unwrap()` on a `None` value" |})).
Proof. reflexivity. Qed.

Example tryPromise_rejected :
  Result.tryPromise (T := Z) (Result.FnP (fun _ => Return (Rejected (new_Error "oh"))))
  = Return (Fulfilled (Result.Err (UnknownException.new_UnknownException
                                     {| UnknownException.error := new_Error "oh" |}))).
Proof. reflexivity. Qed.

(** C3. [tryPromise] does not capture what the wrapped function throws
    before it has returned a promise: it calls the function outside any [try]
    and only attaches [.catch] to the promise returned, so the thrown value
    reaches the caller of [tryPromise], in the function form and in the
    [{ try, catch }] form, where [catch] is not consulted.  [tryCatch] on the
    same function returns an [Err] wrapping the thrown value. *)
Theorem tryPromise_synchronous_throw_not_captured :
  Result.tryPromise (T := Z) (Result.FnP (fun _ => Throw (new_Error "oh")))
  = Throw (new_Error "oh")
  /\ Result.tryPromise (T := Z)
       (Result.ObjP (fun _ => Throw (new_Error "oh")) (fun _ => Return "failed"))
     = Throw (new_Error "oh")
  /\ (forall (X T E : Type) (thrown : X) (catch_ : X -> Completion X E),
         Result.tryPromise (T := T) (Result.FnP (fun _ => Throw thrown)) = Throw thrown
         /\ Result.tryPromise (T := T) (Result.ObjP (fun _ => Throw thrown) catch_)
            = Throw thrown)
  /\ Result.tryCatch (T := Z) (Result.Fn (fun _ => Throw (new_Error "oh")))
     = Return (Result.Err (UnknownException.new_UnknownException
                             {| UnknownException.error := new_Error "oh" |})).
Proof. repeat split. Qed.

(** * Further properties of Result.ts *)

Section ResultLaws.

Context {X T U V E F : Type}.

Implicit Types (self : Result.Result T E) (x : T) (e : E) (thrown : X).

(** X1. Every [Result] satisfies exactly one of [isOk] and [isErr];
    [isOkAnd] and [isErrAnd] with the constant-true predicate are [isOk] and
    [isErr], each calls its predicate on its own variant only, and the two
    never hold together. *)
Theorem Result_isOk_isErr_exclusive :
  forall self (p : T -> bool) (q : E -> bool) thrown,
    Result.isErr self = negb (Result.isOk self)
    /\ Result.isOkAnd (X := X) (total (fun _ => true)) self = Return (Result.isOk self)
    /\ Result.isErrAnd (X := X) (total (fun _ => true)) self = Return (Result.isErr self)
    /\ completes (Result.isOkAnd (fun _ => Throw thrown) self) = Result.isErr self
    /\ completes (Result.isErrAnd (fun _ => Throw thrown) self) = Result.isOk self
    /\ (a <- Result.isOkAnd (X := X) (total p) self ;;
        b <- Result.isErrAnd (total q) self ;;
        ret (a && b)) = Return false.
Proof.
  intros [x|e] p q thrown; repeat split; simpl; unfold total; simpl.
  - rewrite andb_false_r. reflexivity.
Qed.

(** X2. [expect(message)] throws, with [message] as the error's message,
    exactly on an [Err], and [expectErr(message)] exactly on an [Ok]: of the
    two, one returns and the other throws.  [unwrap] and [unwrapErr] are
    [expect] and [expectErr] with their fixed messages. *)
Theorem Result_expect_expectErr_complementary :
  forall self (message : string),
    completes (Result.expect message self) = Result.isOk self
    /\ completes (Result.expectErr message self) = Result.isErr self
    /\ completes (Result.expect message self)
       = negb (completes (Result.expectErr message self))
    /\ (forall e, Result.expect message (Result.Err e : Result.Result T E)
                  = Throw (new_Error message))
    /\ (forall x, Result.expectErr message (Result.Ok x : Result.Result T E)
                  = Throw (new_Error message))
    /\ Result.unwrap self = Result.expect "Called `unwrap` on an `Err` value" self
    /\ Result.unwrapErr self
       = Result.expectErr "Called `unwrapErr` on an `Ok` value" self.
Proof. intros [x|e] message; repeat split. Qed.

(** X3. [map] is a functor on the [Ok] side: mapping the identity changes
    nothing, and mapping [f] then [g] is mapping their composition, also when
    the callbacks throw. *)
Theorem Result_map_functor :
  forall self (f : T -> Completion X U) (g : U -> Completion X V),
    Result.map (X := X) (total (fun x => x)) self = Return self
    /\ (r <- Result.map f self ;; Result.map g r)
       = Result.map (fun x => y <- f x ;; g y) self.
Proof.
  intros [x|e] f g; split; try reflexivity.
  simpl. destruct (f x) as [y|thrown]; simpl; [|reflexivity].
  destruct (g y); reflexivity.
Qed.

(** X4. [map] leaves an [Err] untouched and does not call its function on
    it, [mapErr] does the same for an [Ok], and the two commute. *)
Theorem Result_map_mapErr_commute :
  forall self (f : T -> Completion X U) (g : E -> Completion X F) x e thrown,
    Result.map (fun _ : T => Throw thrown : Completion X U) (Result.Err e)
    = Return (Result.Err e)
    /\ Result.mapErr (fun _ : E => Throw thrown : Completion X F) (Result.Ok x)
       = Return (Result.Ok x)
    /\ (r <- Result.map f self ;; Result.mapErr g r)
       = (r <- Result.mapErr g self ;; Result.map f r).
Proof.
  intros [x0|e0] f g x e thrown; repeat split; simpl.
  - destruct (f x0); reflexivity.
  - destruct (g e0); reflexivity.
Qed.

(** X5. [andThen] obeys the monad laws with [Ok] as unit, and
    short-circuits: on an [Err] the function is not called and the error is
    passed on. *)
Theorem Result_andThen_monad_laws :
  forall self (f : T -> Completion X (Result.Result U E))
         (g : U -> Completion X (Result.Result V E)) x e thrown,
    Result.andThen f (Result.Ok x) = f x
    /\ Result.andThen (X := X) (total Result.Ok) self = Return self
    /\ (r <- Result.andThen f self ;; Result.andThen g r)
       = Result.andThen (fun x => r <- f x ;; Result.andThen g r) self
    /\ Result.andThen (fun _ : T => Throw thrown : Completion X (Result.Result U E))
         (Result.Err e)
       = Return (Result.Err e).
Proof. intros [x0|e0] f g x e thrown; repeat split. Qed.

(** X6. [and], [or] and [flatten] are the eager forms of [andThen] and
    [orElse]: [and(other)] is [andThen(() => other)], [or(other)] is
    [orElse(() => other)], [flatten] is [andThen] of the identity, and
    flattening after [map(fn)] is [andThen(fn)]. *)
Theorem Result_and_or_flatten_as_andThen :
  forall self (other : Result.Result U E) (alternative : Result.Result T E)
         (nested : Result.Result (Result.Result T E) E)
         (fn : T -> Completion X (Result.Result U E)),
    Result.andThen (X := X) (total (fun _ => other)) self
    = Return (Result.and other self)
    /\ Result.orElse (X := X) (total (fun _ => alternative)) self
       = Return (Result.or alternative self)
    /\ Result.andThen (X := X) (total (fun inner => inner)) nested
       = Return (Result.flatten nested)
    /\ (r <- Result.map fn self ;; ret (Result.flatten r)) = Result.andThen fn self.
Proof.
  intros [x|e] other alternative [inner|e'] fn; repeat split; simpl.
  all: destruct (fn x); reflexivity.
Qed.

(** X7. [orElse] is the mirror image of [andThen]: it passes an [Ok] on
    without calling its function, hands the error of an [Err] to it, has
    [Err] as unit and is associative. *)
Theorem Result_orElse_laws :
  forall self (op op' : E -> Completion X (Result.Result T E)) x e thrown,
    Result.orElse (fun _ : E => Throw thrown : Completion X (Result.Result T E))
      (Result.Ok x)
    = Return (Result.Ok x)
    /\ Result.orElse op (Result.Err e) = op e
    /\ Result.orElse (X := X) (total Result.Err) self = Return self
    /\ (r <- Result.orElse op self ;; Result.orElse op' r)
       = Result.orElse (fun e => r <- op e ;; Result.orElse op' r) self.
Proof. intros [x0|e0] op op' x e thrown; repeat split. Qed.

(** X8. [unwrapOr] returns what [unwrap] returns when it returns, and the
    default when [unwrap] would throw; [unwrapOrElse] with a constant
    function agrees with it and does not call its function on an [Ok].  The
    two are [mapOr] and [mapOrElse] with the identity. *)
Theorem Result_unwrapOr_total :
  forall self (defaultValue : T) (fn : E -> Completion X T),
    Result.unwrapOr defaultValue self
    = match Result.unwrap self with
      | Return value => value
      | Throw _ => defaultValue
      end
    /\ Result.unwrapOrElse (X := X) (total (fun _ => defaultValue)) self
       = Return (Result.unwrapOr defaultValue self)
    /\ (forall x thrown,
          Result.unwrapOrElse (fun _ : E => Throw thrown : Completion X T) (Result.Ok x)
          = Return x)
    /\ Result.mapOr (X := X) defaultValue (total (fun x => x)) self
       = Return (Result.unwrapOr defaultValue self)
    /\ Result.mapOrElse fn (total (fun x => x)) self = Result.unwrapOrElse fn self.
Proof. intros [x|e] defaultValue fn; repeat split. Qed.

End ResultLaws.

(** * Further properties of the capture constructors *)

Section CaptureLaws.

Context {X T E : Type}.

(** X9. [tryCatch(fn)] never throws, and its result is an [Ok] exactly when
    [fn] returned; [tryCatch({ try, catch })] throws only when [try] and
    then [catch] both throw, and [catch] is not called when [try] returns. *)
Theorem tryCatch_captures :
  forall (fn : unit -> Completion X T) (catch_ : X -> Completion X E) (thrown : X),
    completes (Result.tryCatch (Result.Fn fn)) = true
    /\ (r <- Result.tryCatch (Result.Fn fn) ;; ret (Result.isOk r))
       = Return (completes (fn tt))
    /\ completes (Result.tryCatch (Result.Obj fn catch_))
       = match fn tt with
         | Return _ => true
         | Throw error => completes (catch_ error)
         end
    /\ (r <- Result.tryCatch (Result.Obj fn (total (fun error : X => error))) ;;
        ret (Result.isOk r))
       = Return (completes (fn tt))
    /\ Result.tryCatch (Result.Obj fn (fun _ => Throw thrown : Completion X E))
       = match fn tt with
         | Return value => Return (Result.Ok value)
         | Throw _ => Throw thrown
         end.
Proof.
  intros fn catch_ thrown. unfold Result.tryCatch. simpl.
  destruct (fn tt) as [value|error]; simpl; repeat split.
  destruct (catch_ error); reflexivity.
Qed.

(** X10. Throwing and capturing undo each other: [tryCatch] around
    [expect(message)] gives back an [Ok] unchanged and turns an [Err] into
    the [Err] of what [catch] makes of [new Error(message)]; [unwrap] after
    [tryCatch] of a function that returns gives back its value. *)
Theorem tryCatch_expect_round_trip :
  forall (self : Result.Result T E) (message : string) (value : T),
    Result.tryCatch
      (Result.Obj (fun _ => Result.expect message self)
                  (total (fun error : Error => Js.message error)))
    = Return (match self with
              | Result.Ok v => Result.Ok v
              | Result.Err _ => Result.Err message
              end)
    /\ (r <- Result.tryCatch (Result.Fn (fun _ => Result.unwrap self)) ;;
        ret (Result.isOk r))
       = Return (Result.isOk self)
    /\ (r <- Result.tryCatch (Result.Fn (fun _ => Return value)) ;; Result.unwrap r)
       = Return value.
Proof. intros [v|e] message value; repeat split. Qed.

(** Once the wrapped function has returned a promise, the promise of
    [tryPromise(fn)] is never rejected: it is fulfilled with [Ok] of the
    value, or with [Err] of an [UnknownException] holding the reason, or
    stays pending with the wrapped promise.  In the [{ try, catch }] form it
    is rejected only by what [catch] throws. *)
Lemma tryPromise_settles_in_a_Result :
  forall (p : Promise X T) (catch_ : X -> Completion X E),
    Result.tryPromise (Result.FnP (fun _ => Return p))
    = Return (match p with
              | Fulfilled value => Fulfilled (Result.Ok value)
              | Rejected reason =>
                  Fulfilled (Result.Err (UnknownException.new_UnknownException
                                           {| UnknownException.error := reason |}))
              | Pending => Pending
              end)
    /\ Result.tryPromise (Result.ObjP (fun _ => Return p) catch_)
       = Return (match p with
                 | Fulfilled value => Fulfilled (Result.Ok value)
                 | Rejected reason =>
                     match catch_ reason with
                     | Return error => Fulfilled (Result.Err error)
                     | Throw thrown => Rejected thrown
                     end
                 | Pending => Pending
                 end).
Proof.
  intros [value|reason|] catch_; split; try reflexivity.
  simpl. destruct (catch_ reason); reflexivity.
Qed.

End CaptureLaws.

(** * Further properties of Option.ts *)

Section OptionLaws.

Context {X T U V E : Type}.

Implicit Types (self : Option.Option T) (x : T) (thrown : X).

(** X11. [inspect] hands the payload to its function and returns the
    receiver unchanged; it calls the function on a [Some] (an [Ok]) only, and
    [Result.inspectErr] on an [Err] only. *)
Theorem inspect_returns_the_receiver :
  forall self (r : Result.Result T E) (f : T -> U) (g : E -> U) thrown,
    Option.inspect (X := X) (total f) self = Return self
    /\ Result.inspect (X := X) (total f) r = Return r
    /\ Result.inspectErr (X := X) (total g) r = Return r
    /\ completes (Option.inspect (fun _ : T => Throw thrown : Completion X U) self)
       = Option.isNone self
    /\ completes (Result.inspect (fun _ : T => Throw thrown : Completion X U) r)
       = Result.isErr r
    /\ completes (Result.inspectErr (fun _ : E => Throw thrown : Completion X U) r)
       = Result.isOk r.
Proof. intros [x|] [v|e] f g thrown; repeat split. Qed.

(** X12. [Option.andThen] obeys the monad laws with [Some] as unit and does
    not call its function on [None]. *)
Theorem Option_andThen_monad_laws :
  forall self (f : T -> Completion X (Option.Option U))
         (g : U -> Completion X (Option.Option V)) x thrown,
    Option.andThen f (Option.Some x) = f x
    /\ Option.andThen (X := X) (total Option.Some) self = Return self
    /\ (o <- Option.andThen f self ;; Option.andThen g o)
       = Option.andThen (fun x => o <- f x ;; Option.andThen g o) self
    /\ Option.andThen (fun _ : T => Throw thrown : Completion X (Option.Option U))
         Option.None
       = Return Option.None.
Proof. intros [x0|] f g x thrown; repeat split. Qed.

(** X13. [Option.map] is a functor, and [map(fn)] followed by [flatten] is
    [andThen(fn)]. *)
Theorem Option_map_functor :
  forall self (f : T -> Completion X U) (g : U -> Completion X V)
         (fn : T -> Completion X (Option.Option U)),
    Option.map (X := X) (total (fun x => x)) self = Return self
    /\ (o <- Option.map f self ;; Option.map g o)
       = Option.map (fun x => y <- f x ;; g y) self
    /\ (o <- Option.map fn self ;; ret (Option.flatten o)) = Option.andThen fn self.
Proof.
  intros [x|] f g fn; repeat split; simpl.
  - destruct (f x) as [y|]; simpl; [destruct (g y)|]; reflexivity.
  - destruct (fn x); reflexivity.
Qed.

(** X14. [filter] returns the receiver or [None], never another value; the
    result is a [Some] exactly when [isSomeAnd] holds; filtering twice with
    the same predicate is filtering once; the predicate is not called on
    [None]. *)
Theorem Option_filter_keeps_or_drops :
  forall self (p : T -> bool) thrown,
    Option.filter (X := X) (total p) self
    = (kept <- Option.isSomeAnd (total p) self ;;
       ret (if kept : bool then self else Option.None))
    /\ (o <- Option.filter (X := X) (total p) self ;; ret (Option.isSome o))
       = Option.isSomeAnd (total p) self
    /\ (o <- Option.filter (X := X) (total p) self ;; Option.filter (total p) o)
       = Option.filter (total p) self
    /\ Option.filter (fun _ : T => Throw thrown : Completion X bool) Option.None
       = Return Option.None.
Proof.
  intros [x|] p thrown; repeat split; simpl; unfold total; simpl.
  all: destruct (p x) eqn:Hp; simpl; try rewrite Hp; reflexivity.
Qed.

End OptionLaws.

Section OptionBridges.

Context {X T U R E : Type}.

Implicit Types (self : Option.Option T) (other : Option.Option U) (x : T) (thrown : X).

(** X15. The four predicates agree with each other: [isSome] is the
    negation of [isNone], [isSomeAnd] and [isNoneOr] with a constant
    predicate are [isSome] and [isNone], and [isNoneOr(p)] is the negation of
    [isSomeAnd] of the negated predicate. *)
Theorem Option_predicates_agree :
  forall self (p : T -> bool),
    Option.isSome self = negb (Option.isNone self)
    /\ Option.isSomeAnd (X := X) (total (fun _ => true)) self
       = Return (Option.isSome self)
    /\ Option.isNoneOr (X := X) (total (fun _ => false)) self
       = Return (Option.isNone self)
    /\ Option.isNoneOr (X := X) (total p) self
       = (b <- Option.isSomeAnd (total (fun x => negb (p x))) self ;; ret (negb b)).
Proof.
  intros [x|] p; repeat split.
  simpl. unfold total. simpl. destruct (p x); reflexivity.
Qed.

(** X16. [okOr] carries presence over to success: the result is an [Ok]
    exactly when the receiver is a [Some], it holds the same value (so
    [Result.unwrapOr] and [Result.unwrap] after [okOr] are [Option.unwrapOr]
    and the value), [okOrElse] agrees with [okOr] and does not call its
    closure on a [Some]. *)
Theorem Option_okOr_bridge :
  forall self (err : E) (defaultValue : T) x thrown,
    Result.isOk (Option.okOr err self) = Option.isSome self
    /\ Result.unwrapOr defaultValue (Option.okOr err self)
       = Option.unwrapOr defaultValue self
    /\ Result.unwrap (Option.okOr err (Option.Some x)) = Return x
    /\ Result.unwrapErr (Option.okOr err (Option.None : Option.Option T)) = Return err
    /\ Option.okOrElse (X := X) (thunk err) self = Return (Option.okOr err self)
    /\ Option.okOrElse (fun _ => Throw thrown : Completion X E) (Option.Some x)
       = Return (Result.Ok x).
Proof. intros [x0|] err defaultValue x thrown; repeat split. Qed.

(** X17. [transpose] of a [Some] is [Result.map(Some)] of its payload, and
    transposing an option of successes gives the success of the option:
    [transpose(map(Ok)(self))] is [Ok(self)]. *)
Theorem Option_transpose_of_map :
  forall self (r : Result.Result T E),
    Result.map (X := X) (total Option.Some) r
    = Return (Option.transpose (Option.Some r))
    /\ (o <- Option.map (X := X) (total Result.Ok) self ;;
        ret (Option.transpose (o : Option.Option (Result.Result T E))))
       = Return (Result.Ok self).
Proof. intros [x|] [v|e]; repeat split. Qed.

(** X18. [zip] is [zipWith] with the pairing function and is [andThen] over
    [map]; [zipWith] calls its function only when both sides are [Some];
    [unzip] followed by [zip] gives the option of pairs back. *)
Theorem Option_zip_zipWith_unzip :
  forall self other (pairs : Option.Option (T * U)) thrown,
    Option.zipWith (X := X) other (fun a b => Return (a, b)) self
    = Return (Option.zip other self)
    /\ Option.andThen (X := X)
         (fun a => Option.map (total (fun b => (a, b))) other) self
       = Return (Option.zip other self)
    /\ completes
         (Option.zipWith other (fun _ _ => Throw thrown : Completion X R) self)
       = negb (Option.isSome self && Option.isSome other)
    /\ Option.zip (snd (Option.unzip pairs)) (fst (Option.unzip pairs)) = pairs.
Proof.
  intros [x|] [y|] [[a b]|] thrown; repeat split.
Qed.

(** X19. [or] and [and] are the eager forms of [orElse] and [andThen];
    [or] has [None] as unit on both sides and is associative; [xor] is
    symmetric, gives [None] on equal sides, and is [or] unless both sides
    are [Some]. *)
Theorem Option_or_and_xor_laws :
  forall (a b c : Option.Option T) other,
    Option.orElse (X := X) (thunk b) a = Return (Option.or b a)
    /\ Option.andThen (X := X) (total (fun _ => other)) a
       = Return (Option.and other a)
    /\ Option.or Option.None a = a
    /\ Option.or b Option.None = b
    /\ Option.or c (Option.or b a) = Option.or (Option.or c b) a
    /\ Option.xor b a = Option.xor a b
    /\ Option.xor a a = Option.None
    /\ Option.xor b a
       = (if Option.isSome a && Option.isSome b then Option.None else Option.or b a).
Proof. intros [x|] [y|] [z|] [u|]; repeat split. Qed.

(** X20. [unwrap] is [expect] with its fixed message; [unwrapOr] and
    [unwrapOrElse] return what [unwrap] returns when it returns and the
    default otherwise; since [mapOr] always returns a [Some], [unwrap] after
    [mapOr] never throws. *)
Theorem Option_unwrap_family :
  forall self (defaultValue : T) (d : U) (f : T -> U) (fn : unit -> Completion Error T),
    Option.unwrap self = Option.expect "Called `Option.unwrap()` on a `None` value" self
    /\ completes (Option.unwrap self) = Option.isSome self
    /\ Option.unwrapOr defaultValue self
       = match Option.unwrap self with
         | Return value => value
         | Throw _ => defaultValue
         end
    /\ Option.unwrapOrElse fn self
       = match Option.unwrap self with
         | Return value => Return value
         | Throw _ => fn tt
         end
    /\ (o <- Option.mapOr d (total f) self ;; Option.unwrap o)
       = Return (match self with
                 | Option.Some x => f x
                 | Option.None => d
                 end).
Proof. intros [x|] defaultValue d f fn; repeat split. Qed.

End OptionBridges.

(** * Properties of src/math *)

Ltac euclid := Z.to_euclidean_division_equations; lia.

Section MathProperties.

Import Math.

Local Open Scope Z_scope.

Lemma toInt32_range (z : Z) : -2147483648 <= toInt32 z < 2147483648.
Proof. unfold toInt32. Z.to_euclidean_division_equations. lia. Qed.

Lemma toInt32_small (z : Z) : -2147483648 <= z < 2147483648 -> toInt32 z = z.
Proof. unfold toInt32. intros H. Z.to_euclidean_division_equations. lia. Qed.

Lemma toInt32_mod (z : Z) : toInt32 z mod 4294967296 = z mod 4294967296.
Proof. unfold toInt32. Z.to_euclidean_division_equations. lia. Qed.

Lemma toInt32_toInt32_add (a b : Z) : toInt32 (toInt32 a + b) = toInt32 (a + b).
Proof. unfold toInt32. Z.to_euclidean_division_equations. lia. Qed.

Lemma toInt32_toInt32_mul (a c : Z) : toInt32 (toInt32 a * c) = toInt32 (a * c).
Proof.
  unfold toInt32 at 1 3. f_equal.
  rewrite <- (Z.add_mod_idemp_l (toInt32 a * c)), <- (Z.add_mod_idemp_l (a * c)) by lia.
  rewrite <- (Z.mul_mod_idemp_l (toInt32 a)), toInt32_mod, Z.mul_mod_idemp_l by lia.
  reflexivity.
Qed.

(** The bit of weight [2 ^ k], where [mask] is that power of two. *)
Lemma land_ldiff_r (x a b : Z) : Z.land x (Z.ldiff a b) = Z.ldiff (Z.land x a) b.
Proof.
  apply Z.bits_inj'. intros n Hn.
  rewrite Z.land_spec, !Z.ldiff_spec, Z.land_spec.
  destruct (Z.testbit x n), (Z.testbit a n), (Z.testbit b n); reflexivity.
Qed.

Lemma land_pow2 (x k : Z) :
  0 <= k -> Z.land x (2 ^ k) = (x mod 2 ^ (k + 1)) / 2 ^ k * 2 ^ k.
Proof.
  intros Hk.
  assert (H2 : 2 ^ k = Z.ldiff (Z.ones (k + 1)) (Z.ones k)).
  { rewrite Z.ldiff_ones_r by lia.
    rewrite Z.shiftr_div_pow2, Z.shiftl_mul_pow2 by lia.
    rewrite Z.ones_equiv, Z.pow_add_r by lia.
    replace (Z.pred (2 ^ k * 2 ^ 1)) with (2 ^ k - 1 + 1 * 2 ^ k) by lia.
    rewrite Z.div_add by lia.
    rewrite Z.div_small by lia. lia. }
  rewrite H2 at 1.
  rewrite land_ldiff_r, Z.land_ones, Z.ldiff_ones_r by lia.
  rewrite Z.shiftr_div_pow2, Z.shiftl_mul_pow2 by lia.
  reflexivity.
Qed.



(** [&] with a mask of low bits, and with a single bit, on numbers. *)
Lemma bitand_ones (v k : Z) :
  0 <= k < 32 -> bitand v (Z.ones k) = v mod 2 ^ k.
Proof.
  intros Hk. unfold bitand.
  assert (Hones : 0 <= Z.ones k < 2147483648).
  { rewrite Z.ones_equiv.
    assert (0 < 2 ^ k) by (apply Z.pow_pos_nonneg; lia).
    assert (2 ^ k <= 2 ^ 31) by (apply Z.pow_le_mono_r; lia).
    change (2 ^ 31) with 2147483648 in *. lia. }
  rewrite (toInt32_small (z := Z.ones k)) by lia.
  rewrite Z.land_ones by lia.
  assert (Hpow : 0 < 2 ^ k <= 2147483648).
  { split; [apply Z.pow_pos_nonneg; lia|].
    change 2147483648 with (2 ^ 31). apply Z.pow_le_mono_r; lia. }
  assert (Hsame : toInt32 v mod 2 ^ k = v mod 2 ^ k).
  { assert (Hdiv : (2 ^ k | 4294967296)).
    { exists (2 ^ (32 - k)). rewrite <- Z.pow_add_r by lia.
      replace (32 - k + k) with 32 by lia. reflexivity. }
    rewrite <- (Z.mod_mod_divide (toInt32 v) _ _ Hdiv), toInt32_mod.
    apply Z.mod_mod_divide; assumption. }
  rewrite Hsame. apply toInt32_small.
  pose proof (Z.mod_pos_bound v (2 ^ k)). lia.
Qed.


Lemma bitand_pow2 (v k : Z) :
  0 <= k < 31 -> bitand v (2 ^ k) = (v mod 2 ^ (k + 1)) / 2 ^ k * 2 ^ k.
Proof.
  intros Hk. unfold bitand.
  assert (Hpow : 0 < 2 ^ k < 2147483648).
  { split; [apply Z.pow_pos_nonneg; lia|].
    change 2147483648 with (2 ^ 31). apply Z.pow_lt_mono_r; lia. }
  rewrite (toInt32_small (z := 2 ^ k)) by lia.
  rewrite land_pow2 by lia.
  assert (Hsame : toInt32 v mod 2 ^ (k + 1) = v mod 2 ^ (k + 1)).
  { assert (Hdiv : (2 ^ (k + 1) | 4294967296)).
    { exists (2 ^ (31 - k)). rewrite <- Z.pow_add_r by lia.
      replace (31 - k + (k + 1)) with 32 by lia. reflexivity. }
    rewrite <- (Z.mod_mod_divide (toInt32 v) _ _ Hdiv), toInt32_mod.
    apply Z.mod_mod_divide; assumption. }
  rewrite Hsame. apply toInt32_small.
  assert (Hk1 : 2 ^ (k + 1) = 2 * 2 ^ k) by (rewrite Z.pow_add_r by lia; lia).
  pose proof (Z.mod_pos_bound v (2 ^ (k + 1))) as Hm.
  assert (Hq : 0 <= v mod 2 ^ (k + 1) / 2 ^ k < 2).
  { split; [apply Z.div_pos; lia|apply Z.div_lt_upper_bound; lia]. }
  nia.
Qed.

(** [&] with the sign bit: [0x80000000] is [-2147483648] as a 32-bit
    integer, and so is the result when the bit is set. *)
Lemma bitand_sign_bit (v : Z) :
  bitand v 0x80000000 = if toInt32 v <? 0 then -2147483648 else 0.
Proof.
  unfold bitand. change (toInt32 0x80000000) with (Z.lnot (Z.ones 31)).
  rewrite <- Z.ldiff_land, Z.ldiff_ones_r by lia.
  rewrite Z.shiftr_div_pow2, Z.shiftl_mul_pow2 by lia.
  change (2 ^ 31) with 2147483648.
  pose proof (toInt32_range v) as Hr.
  destruct (Z.ltb_spec (toInt32 v) 0) as [Hneg|Hpos].
  - replace (toInt32 v / 2147483648) with (-1) by euclid. reflexivity.
  - replace (toInt32 v / 2147483648) with 0 by euclid. reflexivity.
Qed.

(** X21. [clamp(min, max)] returns [value] inside the bounds, [min] below
    them (when [min <= max]) and [max] above; its result lies between the
    bounds exactly when [min <= max]; with the bounds the wrong way round it
    always returns [max]; it is idempotent and monotone. *)
Theorem clamp_into_bounds :
  forall min max value other : Z,
    isBetweenInclusive min max (clamp min max value) = (min <=? max)
    /\ clamp min max value
       = (if max <? min then max
          else if value <? min then min
          else if max <? value then max
          else value)
    /\ clamp min max (clamp min max value) = clamp min max value
    /\ clamp min max (Z.min value other)
       = Z.min (clamp min max value) (clamp min max other).
Proof.
  intros min max value other. unfold isBetweenInclusive, clamp.
  repeat split.
  - destruct (Z.leb_spec min max); [apply andb_true_iff|apply andb_false_iff].
    + split; [apply Z.geb_le|apply Z.leb_le]; lia.
    + left. rewrite Z.geb_leb. apply Z.leb_gt. lia.
  - destruct (Z.ltb_spec max min); [lia|].
    destruct (Z.ltb_spec value min); [lia|].
    destruct (Z.ltb_spec max value); lia.
  - lia.
  - lia.
Qed.

(** X22. When [min <= max], [clamp(min, max)] leaves a value unchanged
    exactly when [isBetweenInclusive(min, max)] accepts it. *)
Theorem clamp_fixes_the_range :
  forall min max value : Z,
    min <= max ->
    (clamp min max value =? value) = isBetweenInclusive min max value.
Proof.
  intros min max value Hle. unfold isBetweenInclusive, clamp.
  rewrite Z.geb_leb.
  destruct (Z.leb_spec min value), (Z.leb_spec value max); simpl;
    [apply Z.eqb_eq|apply Z.eqb_neq|apply Z.eqb_neq|apply Z.eqb_neq]; lia.
Qed.

Lemma clamp_fixes_the_range_witness :
  18 <= 65
  /\ (clamp 18 65 16 =? 16) = isBetweenInclusive 18 65 16
  /\ (clamp 18 65 40 =? 40) = isBetweenInclusive 18 65 40.
Proof.
  split; [lia|].
  split; apply clamp_fixes_the_range; lia.
Defined.

(** X23. The bounded clamps land in the range their checker accepts, and
    leave exactly the accepted values unchanged. *)
Theorem bounded_clamps_are_accepted :
  forall value : Z,
    isI8 (clampI8 value) = true /\ (clampI8 value =? value) = isI8 value
    /\ isI16 (clampI16 value) = true /\ (clampI16 value =? value) = isI16 value
    /\ isI32 (clampI32 value) = true /\ (clampI32 value =? value) = isI32 value
    /\ isU8 (clampU8 value) = true /\ (clampU8 value =? value) = isU8 value
    /\ isU16 (clampU16 value) = true /\ (clampU16 value =? value) = isU16 value
    /\ isU32 (clampU32 value) = true /\ (clampU32 value =? value) = isU32 value.
Proof.
  intros value.
  unfold isI8, clampI8, isI16, clampI16, isI32, clampI32,
    isU8, clampU8, isU16, clampU16, isU32, clampU32,
    isBetweenInclusive, clamp,
    I8_MIN, I8_MAX, I16_MIN, I16_MAX, I32_MIN, I32_MAX,
    U8_MIN, U8_MAX, U16_MIN, U16_MAX, U32_MIN, U32_MAX.
  rewrite !Z.geb_leb.
  repeat split;
    repeat match goal with
      | |- context [Z.leb ?x ?y] => destruct (Z.leb_spec x y)
      | |- context [Z.eqb ?x ?y] => destruct (Z.eqb_spec x y)
      end; simpl; try reflexivity; lia.
Qed.

(** X24. The bounds themselves: [isBetweenInclusive] accepts both bounds
    exactly when [min <= max], [isBetweenExclusive] rejects both, and what the
    exclusive check accepts the inclusive one accepts. *)
Theorem isBetween_bounds :
  forall min max value : Z,
    isBetweenInclusive min max min = (min <=? max)
    /\ isBetweenInclusive min max max = (min <=? max)
    /\ isBetweenExclusive min max min = false
    /\ isBetweenExclusive min max max = false
    /\ (isBetweenExclusive min max value && negb (isBetweenInclusive min max value))%bool
       = false.
Proof.
  intros min max value. unfold isBetweenInclusive, isBetweenExclusive.
  rewrite !Z.geb_leb, !Z.gtb_ltb, !Z.leb_refl, !Z.ltb_irrefl.
  split; [reflexivity|].
  split; [apply andb_true_r|].
  split; [reflexivity|].
  split; [apply andb_false_r|].
  destruct (Z.ltb_spec min value), (Z.ltb_spec value max),
    (Z.leb_spec min value), (Z.leb_spec value max); simpl; try reflexivity; lia.
Qed.


(** [i8] and [i16] wrap any integer, number or bigint, into the signed
    range by two's complement: the result is the one value of the range
    congruent to the argument, so values of the range are unchanged and the
    checker accepts every result. *)
Lemma i8_i16_wrap_around :
  forall v : Z,
    i8 (Number v) = (v + 128) mod 256 - 128
    /\ i8 (BigInt v) = (v + 128) mod 256 - 128
    /\ isI8 (i8 (Number v)) = true
    /\ i8 (Number (clampI8 v)) = clampI8 v
    /\ i16 (Number v) = (v + 32768) mod 65536 - 32768
    /\ i16 (BigInt v) = (v + 32768) mod 65536 - 32768
    /\ isI16 (i16 (Number v)) = true
    /\ i16 (Number (clampI16 v)) = clampI16 v.
Proof.
  assert (H8 : forall v, i8 (Number v) = (v + 128) mod 256 - 128).
  { intros v. unfold i8. change 0x7f with (Z.ones 7). change 0x80 with (2 ^ 7).
    rewrite bitand_ones, bitand_pow2 by lia.
    change (2 ^ (7 + 1)) with 256. change (2 ^ 7) with 128. euclid. }
  assert (H8' : forall v, i8 (BigInt v) = (v + 128) mod 256 - 128).
  { intros v. unfold i8. change 0x7f with (Z.ones 7). change 0x80 with (2 ^ 7).
    rewrite Z.land_ones, land_pow2 by lia.
    change (2 ^ (7 + 1)) with 256. change (2 ^ 7) with 128. euclid. }
  assert (H16 : forall v, i16 (Number v) = (v + 32768) mod 65536 - 32768).
  { intros v. unfold i16. change 0x7fff with (Z.ones 15). change 0x8000 with (2 ^ 15).
    rewrite bitand_ones, bitand_pow2 by lia.
    change (2 ^ (15 + 1)) with 65536. change (2 ^ 15) with 32768. euclid. }
  assert (H16' : forall v, i16 (BigInt v) = (v + 32768) mod 65536 - 32768).
  { intros v. unfold i16. change 0x7fff with (Z.ones 15). change 0x8000 with (2 ^ 15).
    rewrite Z.land_ones, land_pow2 by lia.
    change (2 ^ (15 + 1)) with 65536. change (2 ^ 15) with 32768. euclid. }
  intros v.
  unfold isI8, isI16, isBetweenInclusive, I8_MIN, I8_MAX, I16_MIN, I16_MAX.
  rewrite !H8, H8', !H16, H16', !Z.geb_leb.
  repeat split.
  - apply andb_true_iff. split; apply Z.leb_le; euclid.
  - unfold clampI8, clamp, I8_MIN, I8_MAX. euclid.
  - apply andb_true_iff. split; apply Z.leb_le; euclid.
  - unfold clampI16, clamp, I16_MIN, I16_MAX. euclid.
Qed.

(** [u8] and [u16] reduce any integer, number or bigint, modulo 256
    and 65536: the result is in the unsigned range and the checker accepts
    it. *)
Lemma u8_u16_wrap_around :
  forall v : Z,
    u8 (Number v) = v mod 256
    /\ u8 (BigInt v) = v mod 256
    /\ isU8 (u8 (Number v)) = true
    /\ u16 (Number v) = v mod 65536
    /\ u16 (BigInt v) = v mod 65536
    /\ isU16 (u16 (Number v)) = true.
Proof.
  intros v.
  assert (H8 : u8 (Number v) = v mod 256).
  { unfold u8. change 0xff with (Z.ones 8). rewrite bitand_ones by lia. reflexivity. }
  assert (H8' : u8 (BigInt v) = v mod 256).
  { unfold u8. change 0xff with (Z.ones 8). rewrite Z.land_ones by lia. reflexivity. }
  assert (H16 : u16 (Number v) = v mod 65536).
  { unfold u16. change 0xffff with (Z.ones 16). rewrite bitand_ones by lia. reflexivity. }
  assert (H16' : u16 (BigInt v) = v mod 65536).
  { unfold u16. change 0xffff with (Z.ones 16). rewrite Z.land_ones by lia. reflexivity. }
  unfold isU8, isU16, isBetweenInclusive, U8_MIN, U8_MAX, U16_MIN, U16_MAX.
  rewrite H8, H8', H16, H16', !Z.geb_leb.
  repeat split; apply andb_true_iff; split; apply Z.leb_le; euclid.
Qed.

(** X25. [i8], [i16], [u8] and [u16] wrap any integer, given as a number
    or as a bigint, into their range by two's complement: the signed ones
    return the one value of the signed range congruent to the argument, the
    unsigned ones the remainder modulo 256 and 65536.  Every result is
    accepted by the range check, and a value of the range is returned
    unchanged. *)
Theorem small_integers_wrap_around :
  forall v : Z,
    i8 (Number v) = (v + 128) mod 256 - 128
    /\ i8 (BigInt v) = i8 (Number v)
    /\ isI8 (i8 (Number v)) = true
    /\ i8 (Number (clampI8 v)) = clampI8 v
    /\ i16 (Number v) = (v + 32768) mod 65536 - 32768
    /\ i16 (BigInt v) = i16 (Number v)
    /\ isI16 (i16 (Number v)) = true
    /\ i16 (Number (clampI16 v)) = clampI16 v
    /\ u8 (Number v) = v mod 256
    /\ u8 (BigInt v) = u8 (Number v)
    /\ isU8 (u8 (Number v)) = true
    /\ u8 (Number (clampU8 v)) = clampU8 v
    /\ u16 (Number v) = v mod 65536
    /\ u16 (BigInt v) = u16 (Number v)
    /\ isU16 (u16 (Number v)) = true
    /\ u16 (Number (clampU16 v)) = clampU16 v.
Proof.
  intros v.
  destruct (i8_i16_wrap_around v) as (Hi8 & Hi8' & Hi8r & Hi8c & Hi16 & Hi16' & Hi16r & Hi16c).
  destruct (u8_u16_wrap_around v) as (Hu8 & Hu8' & Hu8r & Hu16 & Hu16' & Hu16r).
  assert (Hu8c : u8 (Number (clampU8 v)) = clampU8 v).
  { destruct (u8_u16_wrap_around (clampU8 v)) as (-> & _).
    unfold clampU8, clamp, U8_MIN, U8_MAX. euclid. }
  assert (Hu16c : u16 (Number (clampU16 v)) = clampU16 v).
  { destruct (u8_u16_wrap_around (clampU16 v)) as (_ & _ & _ & -> & _).
    unfold clampU16, clamp, U16_MIN, U16_MAX. euclid. }
  repeat split; try assumption; congruence.
Qed.

(** X26. On a bigint, [i32] wraps into the signed 32-bit range and [u32]
    reduces modulo 2^32.  On a number the two are the other way round,
    because [&] itself yields a signed 32-bit integer: [i32] returns the
    unsigned residue and [u32] the signed one.  So [i32(-1)] is
    [4294967295], which [isI32] rejects, and [u32(4294967295)] is [-1],
    which [isU32] rejects. *)
Theorem i32_u32_number_and_bigint :
  forall v : Z,
    i32 (BigInt v) = (v + 2147483648) mod 4294967296 - 2147483648
    /\ u32 (BigInt v) = v mod 4294967296
    /\ i32 (Number v) = v mod 4294967296
    /\ u32 (Number v) = (v + 2147483648) mod 4294967296 - 2147483648
    /\ isI32 (i32 (BigInt v)) = true
    /\ isU32 (u32 (BigInt v)) = true
    /\ isI32 (i32 (Number v)) = (0 <=? toInt32 v)
    /\ isU32 (u32 (Number v)) = (0 <=? toInt32 v)
    /\ i32 (Number (-1)) = 4294967295
    /\ u32 (Number 4294967295) = -1.
Proof.
  intros v.
  assert (Hi : i32 (BigInt v) = (v + 2147483648) mod 4294967296 - 2147483648).
  { unfold i32. change 0x7fffffff with (Z.ones 31). change 0x80000000 with (2 ^ 31).
    rewrite Z.land_ones, land_pow2 by lia.
    change (2 ^ (31 + 1)) with 4294967296. change (2 ^ 31) with 2147483648. euclid. }
  assert (Hu : u32 (BigInt v) = v mod 4294967296).
  { unfold u32. change 0xffffffff with (Z.ones 32). rewrite Z.land_ones by lia.
    reflexivity. }
  assert (Hin : i32 (Number v) = v mod 4294967296).
  { unfold i32. rewrite bitand_sign_bit.
    change 0x7fffffff with (Z.ones 31). rewrite bitand_ones by lia.
    change (2 ^ 31) with 2147483648.
    destruct (Z.ltb_spec (toInt32 v) 0) as [Hneg|Hpos];
      unfold toInt32 in *; euclid. }
  assert (Hun : u32 (Number v) = (v + 2147483648) mod 4294967296 - 2147483648).
  { unfold u32, bitand. change (toInt32 0xffffffff) with (-1).
    rewrite Z.land_m1_r.
    rewrite toInt32_small by apply toInt32_range. reflexivity. }
  unfold isI32, isU32, isBetweenInclusive, I32_MIN, I32_MAX, U32_MIN, U32_MAX.
  rewrite Hi, Hu, Hin, Hun, !Z.geb_leb.
  repeat split.
  - apply andb_true_iff. split; apply Z.leb_le; euclid.
  - apply andb_true_iff. split; apply Z.leb_le; euclid.
  - unfold toInt32.
    destruct (Z.leb_spec 0 ((v + 2147483648) mod 4294967296 - 2147483648)).
    + apply andb_true_iff. split; apply Z.leb_le; euclid.
    + apply andb_false_iff. right. apply Z.leb_gt. euclid.
  - unfold toInt32.
    destruct (Z.leb_spec 0 ((v + 2147483648) mod 4294967296 - 2147483648));
      simpl; [apply Z.leb_le; euclid | reflexivity].
Qed.

End MathProperties.

(** * Properties of src/comparable *)

Section HashProperties.

Import Math Comparable Horner.

Local Open Scope Z_scope.

Lemma toInt32_congr (a b : Z) :
  a mod 4294967296 = b mod 4294967296 -> toInt32 a = toInt32 b.
Proof. unfold toInt32. intros H. euclid. Qed.

Lemma hash_step_congr (acc acc' code : Z) :
  toInt32 acc = toInt32 acc' ->
  toInt32 (shiftLeft acc 5 - acc + code) = toInt32 (31 * acc' + code).
Proof.
  unfold shiftLeft. rewrite toInt32_toInt32_mul. change (2 ^ 5) with 32.
  unfold toInt32. intros H. euclid.
Qed.

Lemma hashString_from_congr (str : string) :
  forall hash acc,
    toInt32 hash = toInt32 acc ->
    toInt32 (hashString_from str hash)
    = toInt32 (List.fold_left (fun acc code => 31 * acc + code) (charCodes str) acc).
Proof.
  induction str as [|char rest IH]; intros hash acc Hacc; simpl.
  - exact Hacc.
  - apply IH. rewrite toInt32_small by apply toInt32_range.
    apply hash_step_congr, Hacc.
Qed.

Lemma hashString_from_range (str : string) :
  forall hash,
    -2147483648 <= hash < 2147483648 ->
    -2147483648 <= hashString_from str hash < 2147483648.
Proof.
  induction str as [|char rest IH]; intros hash Hhash; simpl.
  - exact Hhash.
  - apply IH, toInt32_range.
Qed.

Lemma hashString_from_append (s1 s2 : string) :
  forall hash,
    hashString_from (s1 ++ s2) hash = hashString_from s2 (hashString_from s1 hash).
Proof.
  induction s1 as [|char rest IH]; intros hash; simpl; [reflexivity|apply IH].
Qed.

(** X27. [hashString] returns a signed 32-bit integer: the base-31
    polynomial of the code units, reduced to 32 bits (the hash code Java
    gives a string).  The empty string hashes to 0, and the hash of a
    concatenation continues the loop from the hash of the first part. *)
Theorem hashString_is_the_31_polynomial :
  forall str more : string,
    hashString str = toInt32 (polynomial31 (charCodes str))
    /\ -2147483648 <= hashString str < 2147483648
    /\ hashString "" = 0
    /\ hashString (str ++ more) = hashString_from more (hashString str).
Proof.
  intros str more.
  assert (Hrange : -2147483648 <= hashString str < 2147483648)
    by (apply hashString_from_range; lia).
  repeat split; try apply Hrange.
  - rewrite <- (toInt32_small Hrange). apply hashString_from_congr. reflexivity.
  - apply hashString_from_append.
Qed.


(** [getHashCode] on an array and on an object is [hashArray] and
    [hashObject] as the source writes them. *)
Lemma fold_left_ext {A B} (f g : A -> B -> A) (l : list B) :
  (forall acc b, f acc b = g acc b) ->
  forall acc, List.fold_left f l acc = List.fold_left g l acc.
Proof.
  intros Hfg. induction l as [|b l IH]; intros acc; simpl; [reflexivity|].
  rewrite Hfg. apply IH.
Qed.

Lemma getHashCode_JsArray (arr : list JsValue) :
  getHashCode (JsArray arr) = hashArray arr.
Proof. reflexivity. Qed.

Lemma Object_get_map (key : string) (obj : list (string * JsValue)) :
  Object_get 0 key (List.map (fun '(k, v) => (k, getHashCode v)) obj)
  = getHashCode (Object_get JsUndefined key obj).
Proof.
  induction obj as [|[k v] rest IH]; simpl; [reflexivity|].
  destruct (k =? key)%string; [reflexivity|exact IH].
Qed.

Lemma Object_keys_map (obj : list (string * JsValue)) :
  Object_keys (List.map (fun '(k, v) => (k, getHashCode v)) obj) = Object_keys obj.
Proof.
  unfold Object_keys. rewrite List.map_map. apply List.map_ext. intros [k v]. reflexivity.
Qed.

Lemma getHashCode_JsObject (obj : list (string * JsValue)) :
  getHashCode (JsObject obj) = hashObject obj.
Proof.
  simpl. unfold hashObject_of, hashObject. rewrite Object_keys_map.
  apply fold_left_ext. intros acc key. rewrite Object_get_map. reflexivity.
Qed.

(** The order of the keys. *)
Lemma String_leb_trans (a b c : string) :
  String.leb a b = true -> String.leb b c = true -> String.leb a c = true.
Proof.
  unfold String.leb. intros Hab Hbc.
  destruct (String.compare a b) eqn:Eab; try discriminate.
  - apply String_as_OT.cmp_eq in Eab. subst. exact Hbc.
  - destruct (String.compare b c) eqn:Ebc; try discriminate.
    + apply String_as_OT.cmp_eq in Ebc. subst. rewrite Eab. reflexivity.
    + apply String_as_OT.cmp_lt in Eab, Ebc.
      pose proof (String_as_OT.lt_trans _ _ _ Eab Ebc) as Hac.
      apply String_as_OT.cmp_lt in Hac. unfold String_as_OT.cmp in Hac.
      rewrite Hac. reflexivity.
Qed.

Lemma String_leb_false (a b : string) :
  String.leb a b = false -> String.leb b a = true.
Proof.
  intros Hab. destruct (String.leb_total a b) as [H|H]; [congruence|exact H].
Qed.

Lemma sort_insert_commute (x y : string) (l : list string) :
  sort_insert x (sort_insert y l) = sort_insert y (sort_insert x l).
Proof.
  induction l as [|h t IH]; simpl.
  - destruct (String.leb x y) eqn:Hxy, (String.leb y x) eqn:Hyx; try reflexivity.
    + rewrite (String.leb_antisym _ _ Hxy Hyx). reflexivity.
    + apply String_leb_false in Hxy. congruence.
  - destruct (String.leb y h) eqn:Hyh, (String.leb x h) eqn:Hxh; simpl.
    + destruct (String.leb x y) eqn:Hxy, (String.leb y x) eqn:Hyx;
        rewrite ?Hyh, ?Hxh; try reflexivity.
      * rewrite (String.leb_antisym _ _ Hxy Hyx). reflexivity.
      * apply String_leb_false in Hxy. congruence.
    + rewrite Hyh.
      assert (Hxy : String.leb x y = false).
      { destruct (String.leb x y) eqn:Hxy; [|reflexivity].
        rewrite (String_leb_trans _ _ _ Hxy Hyh) in Hxh. discriminate. }
      rewrite Hxy, Hxh. reflexivity.
    + rewrite Hxh.
      assert (Hyx : String.leb y x = false).
      { destruct (String.leb y x) eqn:Hyx; [|reflexivity].
        rewrite (String_leb_trans _ _ _ Hyx Hxh) in Hyh. discriminate. }
      rewrite Hyx, Hyh. reflexivity.
    + rewrite Hyh, Hxh, IH. reflexivity.
Qed.

Lemma sort_Permutation (l l' : list string) :
  Permutation l l' -> sort l = sort l'.
Proof.
  induction 1 as [|x l l' _ IH|x y l|l l' l'' _ IH1 _ IH2]; simpl.
  - reflexivity.
  - rewrite IH. reflexivity.
  - apply sort_insert_commute.
  - congruence.
Qed.

Lemma Object_get_Permutation {V} (missing : V) (key : string) (obj obj' : list (string * V)) :
  Permutation obj obj' ->
  NoDup (Object_keys obj) ->
  Object_get missing key obj = Object_get missing key obj'.
Proof.
  unfold Object_keys.
  induction 1 as [|[k v] l l' Hperm IH|[k1 v1] [k2 v2] l|l l' l'' H1 IH1 H2 IH2];
    intros Hnodup; simpl in *.
  - reflexivity.
  - inversion Hnodup; subst. rewrite IH by assumption. reflexivity.
  - destruct (String.eqb_spec k1 key), (String.eqb_spec k2 key); try reflexivity.
    subst. inversion Hnodup as [|? ? Hnotin _]; subst.
    exfalso. apply Hnotin. left. reflexivity.
  - rewrite IH1 by assumption. apply IH2.
    apply (Permutation_NoDup (Permutation_map fst H1)). assumption.
Qed.

Lemma hashObject_of_Permutation (table table' : list (string * Z)) :
  Permutation table table' ->
  NoDup (Object_keys table) ->
  hashObject_of table = hashObject_of table'.
Proof.
  intros Hperm Hnodup. unfold hashObject_of, Object_keys.
  rewrite (sort_Permutation (Permutation_map fst Hperm)).
  apply fold_left_ext. intros acc key.
  rewrite (Object_get_Permutation 0 key Hperm Hnodup). reflexivity.
Qed.

(** X28. For objects whose values hold integer numbers only (the values of
    [JsValue]), so that every hash code is an integer: the hash code of an
    object does not depend on the order of its properties, because
    [hashObject] sorts the keys first.  Two such objects with the same
    properties, listed in any order, get the same hash code and so compare
    as equal.  An object holding a number that is not an integer, [NaN] or
    an infinity is outside this statement. *)
Theorem hashObject_ignores_property_order :
  forall obj obj' : list (string * JsValue),
    Permutation obj obj' ->
    NoDup (Object_keys obj) ->
    hashObject obj = hashObject obj'
    /\ getHashCode (JsObject obj) = getHashCode (JsObject obj')
    /\ equals (createComparable (JsObject obj')) (createComparable (JsObject obj))
       = true.
Proof.
  intros obj obj' Hperm Hnodup.
  assert (Heq : getHashCode (JsObject obj) = getHashCode (JsObject obj')).
  { simpl. apply hashObject_of_Permutation.
    - apply Permutation_map, Hperm.
    - rewrite Object_keys_map. exact Hnodup. }
  split; [|split].
  - rewrite <- !getHashCode_JsObject. exact Heq.
  - exact Heq.
  - unfold equals, createComparable. cbn [_hashCode]. rewrite Heq. apply Z.eqb_refl.
Qed.


Lemma hashObject_ignores_property_order_witness :
  Permutation
    (("a"%string, JsNumber 5) :: ("b"%string, JsString "test") :: nil)
    (("b"%string, JsString "test") :: ("a"%string, JsNumber 5) :: nil)
  /\ NoDup (Object_keys (("a"%string, JsNumber 5) :: ("b"%string, JsString "test") :: nil))
  /\ getHashCode (JsObject (("a"%string, JsNumber 5) :: ("b"%string, JsString "test") :: nil))
     = getHashCode (JsObject (("b"%string, JsString "test") :: ("a"%string, JsNumber 5) :: nil)).
Proof.
  assert (Hperm :
            Permutation
              (("a"%string, JsNumber 5) :: ("b"%string, JsString "test") :: nil)
              (("b"%string, JsString "test") :: ("a"%string, JsNumber 5) :: nil))
    by apply perm_swap.
  assert (Hnodup :
            NoDup (Object_keys
                     (("a"%string, JsNumber 5) :: ("b"%string, JsString "test") :: nil))).
  { simpl. constructor.
    - simpl. intros [H|[]]. discriminate H.
    - constructor; [intros []|constructor]. }
  split; [exact Hperm|].
  split; [exact Hnodup|].
  apply (hashObject_ignores_property_order Hperm Hnodup).
Defined.

Lemma hashArray_congr (arr : list JsValue) :
  forall acc acc',
    toInt32 acc = toInt32 acc' ->
    toInt32 (List.fold_left (fun acc item => hashArray_step acc (getHashCode item)) arr acc)
    = toInt32 (List.fold_left (fun acc code => 31 * acc + code)
                 (List.map getHashCode arr) acc').
Proof.
  induction arr as [|item rest IH]; intros acc acc' Hacc; simpl.
  - exact Hacc.
  - apply IH. unfold hashArray_step. apply hash_step_congr, Hacc.
Qed.

Lemma hashArray_numbers_bound (numbers : list Z) :
  forall acc,
    Z.abs (List.fold_left (fun acc item => hashArray_step acc (getHashCode item))
             (List.map JsNumber numbers) acc)
    <= Z.abs acc + 4294967296 * Z.of_nat (List.length numbers).
Proof.
  induction numbers as [|z rest IH]; intros acc.
  - simpl. lia.
  - cbn [List.map List.fold_left List.length]. etransitivity; [apply IH|].
    unfold hashArray_step, shiftLeft. cbn [getHashCode].
    pose proof (toInt32_range (toInt32 acc * 2 ^ 5)).
    pose proof (toInt32_range z).
    lia.
Qed.

(** X29. For arrays whose numbers, at any depth, are integers (the values
    of [JsValue]): the hash code of an array is congruent, modulo 2^32, to
    the base-31 polynomial of the hash codes of its items, but unlike
    [hashString] the reducer does not cut it back to 32 bits, so the hash
    code of an array can leave the signed 32-bit range.  For an array of
    integer numbers it stays within 2^32 times the length.  The empty array
    hashes to 0 and a one-element array to the hash code of its element.
    An array holding a number that is not an integer, [NaN] or an infinity
    is outside this statement, and so is an array so long that the running
    value of the reducer reaches 2^53, where the source's doubles stop being
    exact (for a flat array of integer numbers: 2^21 items or more). *)
Theorem hashArray_is_the_31_polynomial_modulo :
  forall (arr : list JsValue) (numbers : list Z) (value : JsValue),
    toInt32 (hashArray arr) = toInt32 (polynomial31 (List.map getHashCode arr))
    /\ Z.abs (hashArray (List.map JsNumber numbers))
       <= 4294967296 * Z.of_nat (List.length numbers)
    /\ hashArray nil = 0
    /\ hashArray (value :: nil) = getHashCode value
    /\ hashArray (JsNumber (-2147483648) :: JsNumber 2147483647 :: nil) = 4294967295.
Proof.
  intros arr numbers value. repeat split.
  - apply hashArray_congr. reflexivity.
  - pose proof (hashArray_numbers_bound numbers 0) as H. unfold hashArray. lia.
Qed.

(** X30. [compare] is the sign of the difference of the hash codes: swapping
    its arguments negates it, and it is 0 exactly when [equals] holds.
    [equals] is symmetric, but it is coarser than equality of the values:
    a value and the one-element array holding it, a function and the string
    of its text, [null] and [undefined] are all equal as comparables. *)
Theorem compare_agrees_with_equals :
  forall (a b : Comparable) (value : JsValue) (text : string),
    compare b a = Z.sgn (_hashCode a - _hashCode b)
    /\ compare a b = - compare b a
    /\ (compare b a =? 0) = equals b a
    /\ equals b a = equals a b
    /\ equals (createComparable (JsArray (value :: nil))) (createComparable value) = true
    /\ equals (createComparable (JsFunction text)) (createComparable (JsString text)) = true
    /\ equals (createComparable JsUndefined) (createComparable JsNull) = true.
Proof.
  intros [ha] [hb] value text. unfold compare, equals, createComparable.
  cbn [_hashCode]. rewrite !Z.gtb_ltb.
  split; [|split; [|split; [|split; [|split; [|split]]]]].
  - destruct (Z.ltb_spec ha hb), (Z.ltb_spec hb ha); lia.
  - destruct (Z.ltb_spec ha hb), (Z.ltb_spec hb ha); lia.
  - destruct (Z.ltb_spec ha hb), (Z.ltb_spec hb ha), (Z.eqb_spec ha hb);
      try reflexivity; lia.
  - apply Z.eqb_sym.
  - apply Z.eqb_eq. reflexivity.
  - apply Z.eqb_refl.
  - reflexivity.
Qed.

End HashProperties.
